(** * pc.LightComponent: property relay between an entity's light
      properties and the renderer's light object

    Shallow embedding of [src/framework/components/light/component.js].
    Every handler of the component is a state transformer over the component
    and the two objects it reaches ([this.light] and
    [this.system.app.scene]); a dereference of a null [this.light] is the
    unhandled [TypeError] of the source and is modelled by [None]. *)

From Stdlib Require Import ZArith List Bool Lia.
From Stdlib Require Import Strings.String.
From Stdlib Require Import Floats.PrimFloat.
Import ListNotations.

Set Warnings "-inexact-float".

Local Open Scope Z_scope.
Local Open Scope string_scope.

(** ** JavaScript primitives *)

(** [ToInt32] of ECMAScript, on integers: the operand of a bitwise operator is
    reduced modulo 2^32 into the signed 32-bit range. *)
Definition ToInt32 (z : Z) : Z := (z + 2 ^ 31) mod 2 ^ 32 - 2 ^ 31.

(** [a | b], [a & b] and [~a]: both operands go through [ToInt32] first. *)
Definition bitor (a b : Z) : Z := Z.lor (ToInt32 a) (ToInt32 b).
Definition bitand (a b : Z) : Z := Z.land (ToInt32 a) (ToInt32 b).
Definition bitnot (a : Z) : Z := Z.lnot (ToInt32 a).

(** A JavaScript Number that is not used as a bit mask is an IEEE 754 binary64
    value, which is what [float] is. *)
Abbreviation Number := float (only parsing).

(** pc.Color: the channels of a colour. *)
Record Color := { r : Number; g : Number; b : Number; a : Number }.

(** A render model is an object; only its identity matters here. *)
Definition Model := nat.

(** ** The render light object *)

Module Light.

(** The method calls the component makes on [this.light], with their
    arguments. *)
Inductive call :=
| SetCastShadows (v : bool)
| SetColor (v : Color)
| SetIntensity (v : Number)
| SetShadowDistance (v : Number)
| SetShadowResolution (v : Z)
| SetShadowBias (v : Number)
| SetNormalOffsetBias (v : Number)
| SetAttenuationEnd (v : Number)
| SetInnerConeAngle (v : Number)
| SetOuterConeAngle (v : Number)
| SetFalloffMode (v : Z)
| SetShadowType (v : Z)
| SetMask (v : Z)
| SetEnabled (v : bool)
| UpdateShadow.

(** Modelled from the spec: the render light object (pc.Light) is declared
    outside this file.  It exposes the setters listed in [call], a mutable
    [mask] field and a [shadowUpdateMode] field, and it is active or not.
    The object keeps, in [calls], every method call it has received, oldest
    first. *)
Record t := {
  mask : Z;
  shadowUpdateMode : Z;
  enabled : bool;
  calls : list call
}.

Definition receive (c : call) (l : t) : t :=
  {| mask := mask l; shadowUpdateMode := shadowUpdateMode l;
     enabled := enabled l; calls := calls l ++ [c] |}.

Definition with_mask (m : Z) (l : t) : t :=
  {| mask := m; shadowUpdateMode := shadowUpdateMode l;
     enabled := enabled l; calls := calls l |}.

Definition with_shadowUpdateMode (v : Z) (l : t) : t :=
  {| mask := mask l; shadowUpdateMode := v;
     enabled := enabled l; calls := calls l |}.

Definition with_enabled (v : bool) (l : t) : t :=
  {| mask := mask l; shadowUpdateMode := shadowUpdateMode l;
     enabled := v; calls := calls l |}.

(** Modelled from the spec: the methods of pc.Light, declared outside this
    file.  Each one is seen through the call the light receives; [setMask]
    is the setter of the [mask] field and [setEnabled] marks the light
    active or inactive. *)
Definition setCastShadows (v : bool) : t -> t := receive (SetCastShadows v).
Definition setColor (v : Color) : t -> t := receive (SetColor v).
Definition setIntensity (v : Number) : t -> t := receive (SetIntensity v).
Definition setShadowDistance (v : Number) : t -> t := receive (SetShadowDistance v).
Definition setShadowResolution (v : Z) : t -> t := receive (SetShadowResolution v).
Definition setShadowBias (v : Number) : t -> t := receive (SetShadowBias v).
Definition setNormalOffsetBias (v : Number) : t -> t := receive (SetNormalOffsetBias v).
Definition setAttenuationEnd (v : Number) : t -> t := receive (SetAttenuationEnd v).
Definition setInnerConeAngle (v : Number) : t -> t := receive (SetInnerConeAngle v).
Definition setOuterConeAngle (v : Number) : t -> t := receive (SetOuterConeAngle v).
Definition setFalloffMode (v : Z) : t -> t := receive (SetFalloffMode v).
Definition setShadowType (v : Z) : t -> t := receive (SetShadowType v).
Definition updateShadow : t -> t := receive UpdateShadow.
Definition setMask (v : Z) (l : t) : t := receive (SetMask v) (with_mask v l).
Definition setEnabled (v : bool) (l : t) : t := receive (SetEnabled v) (with_enabled v l).

(** Recognisers of the calls, to count how often a setter was reached. *)
Definition isSetAttenuationEnd (c : call) : bool :=
  match c with SetAttenuationEnd _ => true | _ => false end.
Definition isSetInnerConeAngle (c : call) : bool :=
  match c with SetInnerConeAngle _ => true | _ => false end.
Definition isSetOuterConeAngle (c : call) : bool :=
  match c with SetOuterConeAngle _ => true | _ => false end.
Definition isSetFalloffMode (c : call) : bool :=
  match c with SetFalloffMode _ => true | _ => false end.
Definition isSetMask (c : call) : bool :=
  match c with SetMask _ => true | _ => false end.

End Light.

(** ** The scene *)

Module Scene.

(** The calls that change the scene. *)
Inductive call :=
| AddModel (m : Model)
| RemoveModel (m : Model).

(** Modelled from the spec: the scene object (pc.Scene) is declared outside
    this file.  It holds a list of models; [calls] keeps the [addModel] and
    [removeModel] calls the scene has received, oldest first. *)
Record t := {
  models : list Model;
  calls : list call
}.

(** Modelled from the spec: [containsModel], [addModel] and [removeModel] of
    pc.Scene, declared outside this file.  [addModel] puts the model at the
    end of the list; [removeModel] removes the model from the scene if it is
    present and leaves the list alone if it is not. *)

Definition containsModel (s : t) (m : Model) : bool :=
  existsb (Nat.eqb m) (models s).

Definition addModel (m : Model) (s : t) : t :=
  {| models := models s ++ [m]; calls := calls s ++ [AddModel m] |}.

Fixpoint remove_first (m : Model) (l : list Model) : list Model :=
  match l with
  | [] => []
  | x :: l' => if Nat.eqb m x then l' else x :: remove_first m l'
  end.

Definition removeModel (m : Model) (s : t) : t :=
  {| models := remove_first m (models s); calls := calls s ++ [RemoveModel m] |}.

End Scene.

(** ** The component *)

Module Entity.
Record t := { enabled : bool }.
End Entity.

(** [this.data]: the stored properties, typed as the component documents
    them. *)
Record LightComponentData := {
  enabled : bool;
  type : string;
  color : Color;
  intensity : Number;
  castShadows : bool;
  shadowDistance : Number;
  shadowResolution : Z;
  shadowBias : Number;
  normalOffsetBias : Number;
  range : Number;
  innerConeAngle : Number;
  outerConeAngle : Number;
  falloffMode : Z;
  shadowType : Z;
  shadowUpdateMode : Z;
  mask : Z;
  affectDynamic : bool;
  affectLightmapped : bool;
  bake : bool;
  model : option Model
}.

(** The component with the objects it reaches: [this.light] ([None] when
    null), the flags [this.lightMap] and [this.baked], the owning entity and
    [this.system.app.scene]. *)
Record LightComponent := {
  data : LightComponentData;
  light : option Light.t;
  lightMap : bool;
  baked : bool;
  entity : Entity.t;
  scene : Scene.t
}.

Definition with_light (this : LightComponent) (l : Light.t) : LightComponent :=
  {| data := data this; light := Some l; lightMap := lightMap this;
     baked := baked this; entity := entity this; scene := scene this |}.

Definition with_scene (this : LightComponent) (s : Scene.t) : LightComponent :=
  {| data := data this; light := light this; lightMap := lightMap this;
     baked := baked this; entity := entity this; scene := s |}.

(** ** Handlers as fallible state transformers *)

(** A method of the component: it returns the component after the call, or
    [None] when the call ends in an uncaught [TypeError]. *)
Definition M := LightComponent -> option LightComponent.

Definition ret : M := fun this => Some this.

Definition seq (f g : M) : M :=
  fun this => match f this with
              | Some this' => g this'
              | None => None
              end.

Notation "f ;; g" := (seq f g) (at level 61, right associativity).

(** [this.light.f(...)] and [this.light.x = ...]: a [TypeError] when
    [this.light] is null. *)
Definition onLight (f : Light.t -> Light.t) : M :=
  fun this => match light this with
              | Some l => Some (with_light this (f l))
              | None => None
              end.

(** [this.system.app.scene.f(...)]. *)
Definition onScene (f : Scene.t -> Scene.t) : M :=
  fun this => Some (with_scene this (f (scene this))).

Section LightComponent.

(** pc.MASK_DYNAMIC, pc.MASK_BAKED and pc.MASK_LIGHTMAP are declared outside
    this file. *)
Variables MASK_DYNAMIC MASK_BAKED MASK_LIGHTMAP : Z.

(** [this.system.changeType(component, oldType, newType)] belongs to the
    owning system, declared outside this file. *)
Variable changeType : LightComponent -> string -> string -> option LightComponent.

(** Modelled from the spec: the base hooks [LightComponent._super.onEnable]
    and [LightComponent._super.onDisable] belong to pc.Component, declared
    outside this file; they add nothing to what the component is said to do
    on enable and on disable. *)
Definition super_onEnable : M := ret.
Definition super_onDisable : M := ret.

Definition updateShadow : M := onLight Light.updateShadow.

Definition onSetCastShadows (name : string) (oldValue newValue : bool) : M :=
  onLight (Light.setCastShadows newValue).

Definition onSetColor (name : string) (oldValue newValue : Color) : M :=
  onLight (Light.setColor newValue).

Definition onSetIntensity (name : string) (oldValue newValue : Number) : M :=
  onLight (Light.setIntensity newValue).

Definition onSetShadowDistance (name : string) (oldValue newValue : Number) : M :=
  fun this =>
    if negb (type (data this) =? "directional") then ret this
    else onLight (Light.setShadowDistance newValue) this.

Definition onSetShadowResolution (name : string) (oldValue newValue : Z) : M :=
  onLight (Light.setShadowResolution newValue).

Definition onSetShadowBias (name : string) (oldValue newValue : Number) : M :=
  onLight (Light.setShadowBias (PrimFloat.mul (PrimFloat.opp 0.01%float) newValue)).

Definition onSetNormalOffsetBias (name : string) (oldValue newValue : Number) : M :=
  onLight (Light.setNormalOffsetBias newValue).

Definition onSetRange (name : string) (oldValue newValue : Number) : M :=
  fun this =>
    if negb (type (data this) =? "point") && negb (type (data this) =? "spot")
    then ret this
    else onLight (Light.setAttenuationEnd newValue) this.

Definition onSetInnerConeAngle (name : string) (oldValue newValue : Number) : M :=
  fun this =>
    if negb (type (data this) =? "spot") then ret this
    else onLight (Light.setInnerConeAngle newValue) this.

Definition onSetOuterConeAngle (name : string) (oldValue newValue : Number) : M :=
  fun this =>
    if negb (type (data this) =? "spot") then ret this
    else onLight (Light.setOuterConeAngle newValue) this.

Definition onSetFalloffMode (name : string) (oldValue newValue : Z) : M :=
  fun this =>
    if negb (type (data this) =? "point") && negb (type (data this) =? "spot")
    then ret this
    else onLight (Light.setFalloffMode newValue) this.

Definition onSetShadowType (name : string) (oldValue newValue : Z) : M :=
  onLight (Light.setShadowType newValue).

Definition onSetShadowUpdateMode (name : string) (oldValue newValue : Z) : M :=
  onLight (Light.with_shadowUpdateMode newValue).

Definition onSetMask (name : string) (oldValue newValue : Z) : M :=
  onLight (Light.setMask newValue).

(** [this.light.mask |= bits] and [this.light.mask &= ~bits]. *)
Definition maskOr (bits : Z) : M :=
  onLight (fun l => Light.with_mask (bitor (Light.mask l) bits) l).

Definition maskAndNot (bits : Z) : M :=
  onLight (fun l => Light.with_mask (bitand (Light.mask l) (bitnot bits)) l).

(** [this.light.setMask(this.light.mask)]. *)
Definition pushMask : M :=
  onLight (fun l => Light.setMask (Light.mask l) l).

Definition onSetAffectDynamic (name : string) (oldValue newValue : bool) : M :=
  (if negb oldValue && newValue then maskOr MASK_DYNAMIC
   else if oldValue && negb newValue then maskAndNot MASK_DYNAMIC
   else ret) ;;
  pushMask.

Definition onSetaffectLightmapped (name : string) (oldValue newValue : bool) : M :=
  (if negb oldValue && newValue then
     maskOr MASK_BAKED ;;
     (fun this => if lightMap this then maskAndNot MASK_LIGHTMAP this else ret this)
   else if oldValue && negb newValue then
     maskAndNot MASK_BAKED ;;
     (fun this => if lightMap this then maskOr MASK_LIGHTMAP this else ret this)
   else ret) ;;
  pushMask.

Definition onSetBake (name : string) (oldValue newValue : bool) : M :=
  (if negb oldValue && newValue then
     maskOr MASK_LIGHTMAP ;;
     (fun this => if baked this then maskAndNot MASK_BAKED this else ret this)
   else if oldValue && negb newValue then
     maskAndNot MASK_LIGHTMAP ;;
     (fun this => if baked this then maskOr MASK_BAKED this else ret this)
   else ret) ;;
  pushMask.

Definition onEnable : M :=
  super_onEnable ;;
  onLight (Light.setEnabled true) ;;
  (fun this =>
     match model (data this) with
     | None => ret this
     | Some model =>
         if Scene.containsModel (scene this) model then ret this
         else onScene (Scene.addModel model) this
     end).

Definition onDisable : M :=
  super_onDisable ;;
  onLight (Light.setEnabled false) ;;
  (fun this =>
     match model (data this) with
     | None => ret this
     | Some model => onScene (Scene.removeModel model) this
     end).

Definition refreshProperties : M :=
  (fun this => onSetCastShadows "castShadows" (castShadows (data this)) (castShadows (data this)) this) ;;
  (fun this => onSetColor "color" (color (data this)) (color (data this)) this) ;;
  (fun this => onSetIntensity "intensity" (intensity (data this)) (intensity (data this)) this) ;;
  (fun this => onSetShadowDistance "shadowDistance" (shadowDistance (data this)) (shadowDistance (data this)) this) ;;
  (fun this => onSetShadowResolution "shadowResolution" (shadowResolution (data this)) (shadowResolution (data this)) this) ;;
  (fun this => onSetShadowBias "shadowBias" (shadowBias (data this)) (shadowBias (data this)) this) ;;
  (fun this => onSetNormalOffsetBias "normalOffsetBias" (normalOffsetBias (data this)) (normalOffsetBias (data this)) this) ;;
  (fun this => onSetRange "range" (range (data this)) (range (data this)) this) ;;
  (fun this => onSetInnerConeAngle "innerConeAngle" (innerConeAngle (data this)) (innerConeAngle (data this)) this) ;;
  (fun this => onSetOuterConeAngle "outerConeAngle" (outerConeAngle (data this)) (outerConeAngle (data this)) this) ;;
  (fun this => onSetFalloffMode "falloffMode" (falloffMode (data this)) (falloffMode (data this)) this) ;;
  (fun this => onSetShadowType "shadowType" (shadowType (data this)) (shadowType (data this)) this) ;;
  (fun this => onSetShadowUpdateMode "shadowUpdateMode" (shadowUpdateMode (data this)) (shadowUpdateMode (data this)) this) ;;
  (fun this => onSetMask "mask" (mask (data this)) (mask (data this)) this) ;;
  (fun this => onSetAffectDynamic "affectDynamic" (affectDynamic (data this)) (affectDynamic (data this)) this) ;;
  (fun this => onSetaffectLightmapped "affectLightmapped" (affectLightmapped (data this)) (affectLightmapped (data this)) this) ;;
  (fun this => onSetBake "bake" (bake (data this)) (bake (data this)) this) ;;
  (fun this =>
     if enabled (data this) && Entity.enabled (entity this) then onEnable this
     else ret this).

Definition onSetType (name : string) (oldValue newValue : string) : M :=
  fun this =>
    if oldValue =? newValue then ret this
    else match changeType this oldValue newValue with
         | Some this' => refreshProperties this'
         | None => None
         end.


(** ** Sample states

    The defaults are the ones the component documents for its properties. *)

Definition white : Color := {| r := 1%float; g := 1%float; b := 1%float; a := 1%float |}.

Definition defaultData : LightComponentData :=
  {| enabled := true; type := "directional"; color := white; intensity := 1%float;
     castShadows := false; shadowDistance := 40%float; shadowResolution := 1024;
     shadowBias := 0.05%float; normalOffsetBias := 0%float; range := 10%float;
     innerConeAngle := 40%float; outerConeAngle := 45%float; falloffMode := 0;
     shadowType := 0; shadowUpdateMode := 2; mask := 1;
     affectDynamic := true; affectLightmapped := false; bake := false;
     model := None |}.

Definition with_type (ty : string) (d : LightComponentData) : LightComponentData :=
  {| enabled := enabled d; type := ty; color := color d; intensity := intensity d;
     castShadows := castShadows d; shadowDistance := shadowDistance d;
     shadowResolution := shadowResolution d; shadowBias := shadowBias d;
     normalOffsetBias := normalOffsetBias d; range := range d;
     innerConeAngle := innerConeAngle d; outerConeAngle := outerConeAngle d;
     falloffMode := falloffMode d; shadowType := shadowType d;
     shadowUpdateMode := shadowUpdateMode d; mask := mask d;
     affectDynamic := affectDynamic d; affectLightmapped := affectLightmapped d;
     bake := bake d; model := model d |}.

Definition with_model (m : option Model) (d : LightComponentData) : LightComponentData :=
  {| enabled := enabled d; type := type d; color := color d; intensity := intensity d;
     castShadows := castShadows d; shadowDistance := shadowDistance d;
     shadowResolution := shadowResolution d; shadowBias := shadowBias d;
     normalOffsetBias := normalOffsetBias d; range := range d;
     innerConeAngle := innerConeAngle d; outerConeAngle := outerConeAngle d;
     falloffMode := falloffMode d; shadowType := shadowType d;
     shadowUpdateMode := shadowUpdateMode d; mask := mask d;
     affectDynamic := affectDynamic d; affectLightmapped := affectLightmapped d;
     bake := bake d; model := m |}.

Definition freshLight : Light.t :=
  {| Light.mask := 1; Light.shadowUpdateMode := 2; Light.enabled := false;
     Light.calls := [] |}.

Definition emptyScene : Scene.t := {| Scene.models := []; Scene.calls := [] |}.

Definition component (d : LightComponentData) (lm bk : bool) (s : Scene.t) : LightComponent :=
  {| data := d; light := Some freshLight; lightMap := lm; baked := bk;
     entity := {| Entity.enabled := true |}; scene := s |}.

(** ** What a handler does to the light *)

(** The handler returns without touching anything. *)
Definition ignored (h : M) (this : LightComponent) : Prop :=
  h this = Some this.

(** The handler makes exactly the call [c] on the light, and nothing else. *)
Definition forwarded (h : M) (c : Light.call) (this : LightComponent) : Prop :=
  forall l, light this = Some l ->
            h this = Some (with_light this (Light.receive c l)).

(** The handler ends with the light's mask equal to [r], after one more
    [setMask] call, made with [r]; the rest of the light is as it was. *)
Definition pushed (h : M) (r : Z) (this : LightComponent) (l : Light.t) : Prop :=
  exists l', h this = Some (with_light this l') /\
             Light.mask l' = r /\
             Light.calls l' = (Light.calls l ++ [Light.SetMask r])%list /\
             Light.shadowUpdateMode l' = Light.shadowUpdateMode l /\
             Light.enabled l' = Light.enabled l.

(** Bits of a 32-bit mask [r] against the flag [bits] and the mask [m] it was
    computed from. *)
Definition sets (bits r : Z) : Prop :=
  forall i, 0 <= i < 32 -> Z.testbit bits i = true -> Z.testbit r i = true.

Definition clears (bits r : Z) : Prop :=
  forall i, 0 <= i < 32 -> Z.testbit bits i = true -> Z.testbit r i = false.

Definition keeps_outside (bits m r : Z) : Prop :=
  forall i, 0 <= i < 32 -> Z.testbit bits i = false -> Z.testbit r i = Z.testbit m i.

(** ** Expected outcomes *)

(** The scene [onEnable] leaves behind. *)
Definition sceneAfterEnable (this : LightComponent) : Scene.t :=
  match model (data this) with
  | None => scene this
  | Some m =>
      if Scene.containsModel (scene this) m then scene this
      else Scene.addModel m (scene this)
  end.

(** The calls the render light receives from the handlers that
    [refreshProperties] runs, for stored properties [d]. *)
Definition refreshCalls (d : LightComponentData) : list Light.call :=
  ([Light.SetCastShadows (castShadows d); Light.SetColor (color d);
    Light.SetIntensity (intensity d)] ++
   (if type d =? "directional"
    then [Light.SetShadowDistance (shadowDistance d)] else []) ++
   [Light.SetShadowResolution (shadowResolution d);
    Light.SetShadowBias (PrimFloat.mul (PrimFloat.opp 0.01%float) (shadowBias d));
    Light.SetNormalOffsetBias (normalOffsetBias d)] ++
   (if (type d =? "point") || (type d =? "spot")
    then [Light.SetAttenuationEnd (range d)] else []) ++
   (if type d =? "spot"
    then [Light.SetInnerConeAngle (innerConeAngle d);
          Light.SetOuterConeAngle (outerConeAngle d)] else []) ++
   (if (type d =? "point") || (type d =? "spot")
    then [Light.SetFalloffMode (falloffMode d)] else []) ++
   [Light.SetShadowType (shadowType d);
    Light.SetMask (mask d); Light.SetMask (mask d);
    Light.SetMask (mask d); Light.SetMask (mask d)])%list.

(** The render light once those handlers have run. *)
Definition refreshed (d : LightComponentData) (l : Light.t) : Light.t :=
  {| Light.mask := mask d;
     Light.shadowUpdateMode := shadowUpdateMode d;
     Light.enabled := Light.enabled l;
     Light.calls := Light.calls l ++ refreshCalls d |}.

(** The seventeen handlers of [refreshProperties], each with the stored value
    of its property in [d] as old and as new value. *)
Definition refreshHandlers (d : LightComponentData) : M :=
  onSetCastShadows "castShadows" (castShadows d) (castShadows d) ;;
  onSetColor "color" (color d) (color d) ;;
  onSetIntensity "intensity" (intensity d) (intensity d) ;;
  onSetShadowDistance "shadowDistance" (shadowDistance d) (shadowDistance d) ;;
  onSetShadowResolution "shadowResolution" (shadowResolution d) (shadowResolution d) ;;
  onSetShadowBias "shadowBias" (shadowBias d) (shadowBias d) ;;
  onSetNormalOffsetBias "normalOffsetBias" (normalOffsetBias d) (normalOffsetBias d) ;;
  onSetRange "range" (range d) (range d) ;;
  onSetInnerConeAngle "innerConeAngle" (innerConeAngle d) (innerConeAngle d) ;;
  onSetOuterConeAngle "outerConeAngle" (outerConeAngle d) (outerConeAngle d) ;;
  onSetFalloffMode "falloffMode" (falloffMode d) (falloffMode d) ;;
  onSetShadowType "shadowType" (shadowType d) (shadowType d) ;;
  onSetShadowUpdateMode "shadowUpdateMode" (shadowUpdateMode d) (shadowUpdateMode d) ;;
  onSetMask "mask" (mask d) (mask d) ;;
  onSetAffectDynamic "affectDynamic" (affectDynamic d) (affectDynamic d) ;;
  onSetaffectLightmapped "affectLightmapped" (affectLightmapped d) (affectLightmapped d) ;;
  onSetBake "bake" (bake d) (bake d).

(** ** Concrete components *)

Definition spotLight : LightComponent :=
  component (with_type "spot" defaultData) false false emptyScene.

Definition bakedLight : LightComponent :=
  component defaultData true true emptyScene.

Definition modelLight : LightComponent :=
  component (with_model (Some 7%nat) defaultData) false false emptyScene.

(** An owning system whose changeType puts a fresh render light in place. *)
Definition freshLightSystem (this : LightComponent) (oldType newType : string)
  : option LightComponent :=
  Some (with_light this freshLight).

(** * Properties *)

(** ** Bitwise operators *)

Lemma ToInt32_mod (z : Z) : ToInt32 z mod 2 ^ 32 = z mod 2 ^ 32.
Proof.
  unfold ToInt32.
  rewrite Zminus_mod_idemp_l.
  f_equal. lia.
Qed.

Lemma ToInt32_testbit (z i : Z) :
  0 <= i < 32 -> Z.testbit (ToInt32 z) i = Z.testbit z i.
Proof.
  intros Hi.
  rewrite <- (Z.mod_pow2_bits_low (ToInt32 z) 32 i) by lia.
  rewrite <- (Z.mod_pow2_bits_low z 32 i) by lia.
  now rewrite ToInt32_mod.
Qed.

Lemma bitor_testbit (x y i : Z) :
  0 <= i < 32 ->
  Z.testbit (bitor x y) i = Z.testbit x i || Z.testbit y i.
Proof.
  intros Hi. unfold bitor.
  now rewrite Z.lor_spec, !ToInt32_testbit.
Qed.

Lemma bitandnot_testbit (x y i : Z) :
  0 <= i < 32 ->
  Z.testbit (bitand x (bitnot y)) i = Z.testbit x i && negb (Z.testbit y i).
Proof.
  intros Hi. unfold bitand, bitnot.
  rewrite Z.land_spec, !ToInt32_testbit by assumption.
  rewrite Z.lnot_spec by lia.
  now rewrite ToInt32_testbit.
Qed.

Lemma disjoint_bits (x y i : Z) :
  Z.land x y = 0 -> Z.testbit x i = true -> Z.testbit y i = false.
Proof.
  intros Hxy Hx.
  assert (H : Z.testbit (Z.land x y) i = false) by (rewrite Hxy; apply Z.bits_0).
  rewrite Z.land_spec, Hx in H. exact H.
Qed.

(** ** Type-gated and unconditional forwarding *)

Lemma onLight_some (f : Light.t -> Light.t) (this : LightComponent) (l : Light.t) :
  light this = Some l -> onLight f this = Some (with_light this (f l)).
Proof. intros H. unfold onLight. now rewrite H. Qed.

Lemma with_light_twice (this : LightComponent) (l1 l2 : Light.t) :
  with_light (with_light this l1) l2 = with_light this l2.
Proof. reflexivity. Qed.

Lemma eqb_false_of_neq (s1 s2 : string) : s1 <> s2 -> (s1 =? s2) = false.
Proof. apply String.eqb_neq. Qed.

(** C1. A type-gated handler returns without calling the setter of the render
    light when the current type does not match (shadowDistance: not
    'directional'; range and falloffMode: neither 'point' nor 'spot';
    innerConeAngle and outerConeAngle: not 'spot'), and makes exactly one call
    of that setter, with the new value as it is, when the type matches. *)
Theorem type_gated_handlers (this : LightComponent) (name : string) :
  let ty := type (data this) in
  (forall o v, ty <> "directional" ->
     ignored (onSetShadowDistance name o v) this) /\
  (forall o v, ty = "directional" ->
     forwarded (onSetShadowDistance name o v) (Light.SetShadowDistance v) this) /\
  (forall o v, ty <> "point" -> ty <> "spot" ->
     ignored (onSetRange name o v) this) /\
  (forall o v, ty = "point" \/ ty = "spot" ->
     forwarded (onSetRange name o v) (Light.SetAttenuationEnd v) this) /\
  (forall o v, ty <> "point" -> ty <> "spot" ->
     ignored (onSetFalloffMode name o v) this) /\
  (forall o v, ty = "point" \/ ty = "spot" ->
     forwarded (onSetFalloffMode name o v) (Light.SetFalloffMode v) this) /\
  (forall o v, ty <> "spot" ->
     ignored (onSetInnerConeAngle name o v) this) /\
  (forall o v, ty = "spot" ->
     forwarded (onSetInnerConeAngle name o v) (Light.SetInnerConeAngle v) this) /\
  (forall o v, ty <> "spot" ->
     ignored (onSetOuterConeAngle name o v) this) /\
  (forall o v, ty = "spot" ->
     forwarded (onSetOuterConeAngle name o v) (Light.SetOuterConeAngle v) this).
Proof.
  intros ty.
  unfold ignored, forwarded, onSetShadowDistance, onSetRange, onSetFalloffMode,
    onSetInnerConeAngle, onSetOuterConeAngle.
  fold ty.
  repeat split; intros o v.
  - intros H. now rewrite (eqb_false_of_neq _ _ H).
  - intros H l Hl. rewrite H. simpl. now apply onLight_some.
  - intros H1 H2.
    now rewrite (eqb_false_of_neq _ _ H1), (eqb_false_of_neq _ _ H2).
  - intros [H | H] l Hl; rewrite H; simpl; now apply onLight_some.
  - intros H1 H2.
    now rewrite (eqb_false_of_neq _ _ H1), (eqb_false_of_neq _ _ H2).
  - intros [H | H] l Hl; rewrite H; simpl; now apply onLight_some.
  - intros H. now rewrite (eqb_false_of_neq _ _ H).
  - intros H l Hl. rewrite H. simpl. now apply onLight_some.
  - intros H. now rewrite (eqb_false_of_neq _ _ H).
  - intros H l Hl. rewrite H. simpl. now apply onLight_some.
Qed.

(** C2. For every value v set on shadowBias, the render light receives one
    call, setShadowBias, whose argument is the product of -0.01 and v. *)
Theorem shadowBias_forwarded_scaled (this : LightComponent) (name : string)
    (oldValue v : Number) :
  forwarded (onSetShadowBias name oldValue v)
            (Light.SetShadowBias (PrimFloat.mul (PrimFloat.opp 0.01%float) v)) this.
Proof.
  intros l Hl. unfold onSetShadowBias. now apply onLight_some.
Qed.

(** ** Mask-bit toggles *)

Ltac run_on Hl :=
  unfold seq, maskOr, maskAndNot, pushMask, ret; cbn;
  rewrite ?(onLight_some _ _ _ Hl); cbn.

Ltac bit_cases Hdisj i Hb :=
  let D1 := fresh "D" in
  let D2 := fresh "D" in
  pose proof (disjoint_bits _ _ i Hdisj) as D1;
  pose proof (disjoint_bits _ _ i (eq_trans (Z.land_comm _ _) Hdisj)) as D2;
  repeat match goal with
         | |- context [Z.testbit ?x i] =>
             is_var x; destruct (Z.testbit x i)
         | H : context [Z.testbit ?x i] |- _ =>
             is_var x; destruct (Z.testbit x i)
         end;
  cbn in D1, D2, Hb |- *;
  first [ reflexivity
        | discriminate Hb
        | discriminate (D1 eq_refl)
        | discriminate (D2 eq_refl) ].

Ltac bits Hdisj :=
  unfold sets, clears, keeps_outside;
  let i := fresh "i" in
  let Hi := fresh "Hi" in
  let Hb := fresh "Hb" in
  intros i Hi Hb;
  repeat first [ rewrite bitor_testbit by assumption
               | rewrite bitandnot_testbit by assumption ];
  rewrite ?Z.lor_spec in Hb;
  bit_cases Hdisj i Hb.

Lemma pushed_intro (h : M) (this : LightComponent) (l : Light.t) (r : Z) :
  h this = Some (with_light this (Light.setMask r l)) -> pushed h r this l.
Proof.
  intros H. exists (Light.setMask r l). repeat split; assumption.
Qed.

(** C3. From every prior mask m of the render light: affectLightmapped going
    from false to true sets MASK_BAKED and, when the lightMap flag is set,
    clears MASK_LIGHTMAP; from true to false it clears MASK_BAKED and, when
    lightMap is set, sets MASK_LIGHTMAP.  bake going from false to true sets
    MASK_LIGHTMAP and, when the baked flag is set, clears MASK_BAKED; from
    true to false it clears MASK_LIGHTMAP and, when baked is set, sets
    MASK_BAKED.  Each time the resulting mask is passed to setMask, and the
    bits of the 32-bit mask outside the flags that were edited are those of
    m. *)
Theorem mask_toggle_handlers (this : LightComponent) (l : Light.t) (name : string) :
  light this = Some l ->
  Z.land MASK_BAKED MASK_LIGHTMAP = 0 ->
  let m := Light.mask l in
  let edited (flag other : Z) (cond : bool) :=
    if cond then Z.lor flag other else flag in
  (exists r,
     pushed (onSetaffectLightmapped name false true) r this l /\
     sets MASK_BAKED r /\
     (lightMap this = true -> clears MASK_LIGHTMAP r) /\
     keeps_outside (edited MASK_BAKED MASK_LIGHTMAP (lightMap this)) m r) /\
  (exists r,
     pushed (onSetaffectLightmapped name true false) r this l /\
     clears MASK_BAKED r /\
     (lightMap this = true -> sets MASK_LIGHTMAP r) /\
     keeps_outside (edited MASK_BAKED MASK_LIGHTMAP (lightMap this)) m r) /\
  (exists r,
     pushed (onSetBake name false true) r this l /\
     sets MASK_LIGHTMAP r /\
     (baked this = true -> clears MASK_BAKED r) /\
     keeps_outside (edited MASK_LIGHTMAP MASK_BAKED (baked this)) m r) /\
  (exists r,
     pushed (onSetBake name true false) r this l /\
     clears MASK_LIGHTMAP r /\
     (baked this = true -> sets MASK_BAKED r) /\
     keeps_outside (edited MASK_LIGHTMAP MASK_BAKED (baked this)) m r).
Proof using MASK_BAKED MASK_LIGHTMAP.
  intros Hl Hdisj m edited. subst edited.
  assert (Hm : Light.mask l = m) by reflexivity.
  clearbody m.
  repeat apply conj.
  - destruct (lightMap this) eqn:Hflag.
    + exists (bitand (bitor m MASK_BAKED) (bitnot MASK_LIGHTMAP)).
      split; [ | split; [ bits Hdisj | split; [ intros _; bits Hdisj | bits Hdisj ] ] ].
      apply pushed_intro. unfold onSetaffectLightmapped. run_on Hl.
      rewrite Hflag. cbn. now rewrite Hm.
    + exists (bitor m MASK_BAKED).
      split; [ | split; [ bits Hdisj | split; [ discriminate | bits Hdisj ] ] ].
      apply pushed_intro. unfold onSetaffectLightmapped. run_on Hl.
      rewrite Hflag. cbn. now rewrite Hm.
  - destruct (lightMap this) eqn:Hflag.
    + exists (bitor (bitand m (bitnot MASK_BAKED)) MASK_LIGHTMAP).
      split; [ | split; [ bits Hdisj | split; [ intros _; bits Hdisj | bits Hdisj ] ] ].
      apply pushed_intro. unfold onSetaffectLightmapped. run_on Hl.
      rewrite Hflag. cbn. now rewrite Hm.
    + exists (bitand m (bitnot MASK_BAKED)).
      split; [ | split; [ bits Hdisj | split; [ discriminate | bits Hdisj ] ] ].
      apply pushed_intro. unfold onSetaffectLightmapped. run_on Hl.
      rewrite Hflag. cbn. now rewrite Hm.
  - destruct (baked this) eqn:Hflag.
    + exists (bitand (bitor m MASK_LIGHTMAP) (bitnot MASK_BAKED)).
      split; [ | split; [ bits Hdisj | split; [ intros _; bits Hdisj | bits Hdisj ] ] ].
      apply pushed_intro. unfold onSetBake. run_on Hl.
      rewrite Hflag. cbn. now rewrite Hm.
    + exists (bitor m MASK_LIGHTMAP).
      split; [ | split; [ bits Hdisj | split; [ discriminate | bits Hdisj ] ] ].
      apply pushed_intro. unfold onSetBake. run_on Hl.
      rewrite Hflag. cbn. now rewrite Hm.
  - destruct (baked this) eqn:Hflag.
    + exists (bitor (bitand m (bitnot MASK_LIGHTMAP)) MASK_BAKED).
      split; [ | split; [ bits Hdisj | split; [ intros _; bits Hdisj | bits Hdisj ] ] ].
      apply pushed_intro. unfold onSetBake. run_on Hl.
      rewrite Hflag. cbn. now rewrite Hm.
    + exists (bitand m (bitnot MASK_LIGHTMAP)).
      split; [ | split; [ bits Hdisj | split; [ discriminate | bits Hdisj ] ] ].
      apply pushed_intro. unfold onSetBake. run_on Hl.
      rewrite Hflag. cbn. now rewrite Hm.
Qed.

(** C4. From any mask, with the lightMap and baked flags both true, bake
    going from false to true followed by affectLightmapped going from false
    to true leaves the render light's mask with MASK_LIGHTMAP cleared and
    MASK_BAKED set; the other bits of the 32-bit mask are untouched and the
    final mask is the argument of the last setMask call. *)
Theorem bake_then_affectLightmapped (this : LightComponent) (l : Light.t)
    (name1 name2 : string) :
  light this = Some l ->
  lightMap this = true ->
  baked this = true ->
  Z.land MASK_BAKED MASK_LIGHTMAP = 0 ->
  exists l' r1,
    (onSetBake name1 false true ;; onSetaffectLightmapped name2 false true) this
      = Some (with_light this l') /\
    clears MASK_LIGHTMAP (Light.mask l') /\
    sets MASK_BAKED (Light.mask l') /\
    keeps_outside (Z.lor MASK_BAKED MASK_LIGHTMAP) (Light.mask l) (Light.mask l') /\
    Light.calls l' =
      (Light.calls l ++ [Light.SetMask r1; Light.SetMask (Light.mask l')])%list.
Proof using MASK_BAKED MASK_LIGHTMAP.
  intros Hl Hlm Hbk Hdisj.
  remember (Light.mask l) as m eqn:Hm.
  exists (Light.setMask
            (bitand (bitor (bitand (bitor m MASK_LIGHTMAP) (bitnot MASK_BAKED))
                           MASK_BAKED)
                    (bitnot MASK_LIGHTMAP))
            (Light.setMask (bitand (bitor m MASK_LIGHTMAP) (bitnot MASK_BAKED)) l)).
  exists (bitand (bitor m MASK_LIGHTMAP) (bitnot MASK_BAKED)).
  split; [ | split; [ | split; [ | split ] ] ].
  - unfold onSetBake, onSetaffectLightmapped. run_on Hl.
    rewrite Hbk. cbn. rewrite Hlm. cbn. now rewrite <- Hm.
  - cbn. bits Hdisj.
  - cbn. bits Hdisj.
  - cbn. bits Hdisj.
  - cbn. now rewrite <- app_assoc.
Qed.

(** A toggle handler called with equal old and new values edits no bit: it
    only passes the light's own mask to setMask. *)
Lemma onSetAffectDynamic_same (this : LightComponent) (name : string) (v : bool) :
  onSetAffectDynamic name v v this = pushMask this.
Proof. unfold onSetAffectDynamic. now destruct v. Qed.

Lemma onSetaffectLightmapped_same (this : LightComponent) (name : string) (v : bool) :
  onSetaffectLightmapped name v v this = pushMask this.
Proof. unfold onSetaffectLightmapped. now destruct v. Qed.

Lemma onSetBake_same (this : LightComponent) (name : string) (v : bool) :
  onSetBake name v v this = pushMask this.
Proof. unfold onSetBake. now destruct v. Qed.

Lemma pushMask_some (this : LightComponent) (l : Light.t) :
  light this = Some l ->
  pushMask this = Some (with_light this (Light.setMask (Light.mask l) l)).
Proof.
  intros Hl. unfold pushMask.
  exact (onLight_some (fun l0 => Light.setMask (Light.mask l0) l0) this l Hl).
Qed.

(** ** Enable and disable *)

Lemma containsModel_addModel (s : Scene.t) (m : Model) :
  Scene.containsModel (Scene.addModel m s) m = true.
Proof.
  unfold Scene.containsModel, Scene.addModel. cbn.
  rewrite existsb_app. cbn.
  rewrite Nat.eqb_refl. now rewrite orb_true_r.
Qed.

Lemma remove_first_absent (m : Model) (l : list Model) :
  existsb (Nat.eqb m) l = false -> Scene.remove_first m l = l.
Proof.
  induction l as [ | x l IH ]; cbn; [ reflexivity | ].
  intros H. apply orb_false_iff in H. destruct H as [Hx Hl].
  rewrite Hx. now rewrite IH.
Qed.

Lemma remove_first_present (m : Model) (l : list Model) :
  existsb (Nat.eqb m) l = true ->
  (count_occ Nat.eq_dec (Scene.remove_first m l) m + 1 = count_occ Nat.eq_dec l m)%nat.
Proof.
  induction l as [ | x l IH ]; cbn; [ discriminate | ].
  intros H. destruct (Nat.eqb m x) eqn:Hx.
  - apply Nat.eqb_eq in Hx. subst x.
    destruct (Nat.eq_dec m m) as [ _ | Hn ]; [ lia | now elim Hn ].
  - cbn in H. apply Nat.eqb_neq in Hx. cbn.
    destruct (Nat.eq_dec x m) as [ He | _ ]; [ now elim Hx | ].
    now apply IH.
Qed.

Lemma remove_first_other (m x : Model) (l : list Model) :
  x <> m ->
  count_occ Nat.eq_dec (Scene.remove_first m l) x = count_occ Nat.eq_dec l x.
Proof.
  intros Hx.
  induction l as [ | y l IH ]; cbn; [ reflexivity | ].
  destruct (Nat.eqb m y) eqn:Hy.
  - apply Nat.eqb_eq in Hy. subst y.
    destruct (Nat.eq_dec m x) as [ He | _ ]; [ now elim Hx | reflexivity ].
  - cbn. destruct (Nat.eq_dec y x); now rewrite IH.
Qed.

Lemma onEnable_some (this : LightComponent) (l : Light.t) :
  light this = Some l ->
  onEnable this =
    Some (with_scene (with_light this (Light.setEnabled true l))
                     (sceneAfterEnable this)).
Proof.
  intros Hl. unfold onEnable, super_onEnable, sceneAfterEnable, seq, ret, onScene.
  rewrite (onLight_some _ _ _ Hl). cbn.
  destruct this as [d lo lm bk e sc]. cbn in *. subst lo.
  destruct (model d) as [ m | ]; [ | reflexivity ].
  destruct (Scene.containsModel sc m); reflexivity.
Qed.

Lemma onDisable_some (this : LightComponent) (l : Light.t) :
  light this = Some l ->
  onDisable this =
    Some (with_scene (with_light this (Light.setEnabled false l))
                     (match model (data this) with
                      | None => scene this
                      | Some m => Scene.removeModel m (scene this)
                      end)).
Proof.
  intros Hl. unfold onDisable, super_onDisable, seq, ret, onScene.
  rewrite (onLight_some _ _ _ Hl). cbn.
  destruct this as [d lo lm bk e sc]. cbn in *. subst lo.
  destruct (model d) as [ m | ]; reflexivity.
Qed.

(** C5. onEnable always marks the render light enabled.  When the component
    owns a render model, a second onEnable right after the first finds the
    model contained in the scene and leaves the scene as the first call left
    it, so that over the two calls the model is added at most once: not at
    all when the scene held it already, once otherwise. *)
Theorem onEnable_twice (this : LightComponent) (l : Light.t) :
  light this = Some l ->
  exists this1 l1,
    onEnable this = Some this1 /\
    light this1 = Some l1 /\
    Light.enabled l1 = true /\
    Light.calls l1 = (Light.calls l ++ [Light.SetEnabled true])%list /\
    forall m, model (data this) = Some m ->
      exists this2 l2,
        onEnable this1 = Some this2 /\
        light this2 = Some l2 /\
        Light.enabled l2 = true /\
        Scene.containsModel (scene this1) m = true /\
        scene this2 = scene this1 /\
        (Scene.containsModel (scene this) m = true -> scene this2 = scene this) /\
        (Scene.containsModel (scene this) m = false ->
           Scene.models (scene this2) = (Scene.models (scene this) ++ [m])%list /\
           Scene.calls (scene this2) =
             (Scene.calls (scene this) ++ [Scene.AddModel m])%list).
Proof.
  intros Hl.
  eexists. exists (Light.setEnabled true l).
  split; [ exact (onEnable_some _ _ Hl) | ].
  repeat split.
  intros m Hm.
  eexists. exists (Light.setEnabled true (Light.setEnabled true l)).
  split; [ apply onEnable_some; reflexivity | ].
  unfold sceneAfterEnable.
  cbn [data scene light with_scene with_light]. rewrite Hm.
  destruct (Scene.containsModel (scene this) m) eqn:Hc.
  - rewrite Hc. repeat split; congruence.
  - rewrite containsModel_addModel. repeat split; congruence.
Qed.

(** C6, as the code has it.  onDisable marks the render light inactive.  When
    the component owns no model it does not touch the scene and does not
    fault.  When it owns a model it calls removeModel on the scene without
    asking containsModel first; that call takes one occurrence of the model
    out of the scene's list when the model is there and leaves the list as
    it is when the model is absent. *)
Theorem onDisable_effect (this : LightComponent) (l : Light.t) :
  light this = Some l ->
  exists this' l',
    onDisable this = Some this' /\
    data this' = data this /\
    light this' = Some l' /\
    Light.enabled l' = false /\
    Light.calls l' = (Light.calls l ++ [Light.SetEnabled false])%list /\
    match model (data this) with
    | None => scene this' = scene this
    | Some m =>
        Scene.calls (scene this') =
          (Scene.calls (scene this) ++ [Scene.RemoveModel m])%list /\
        (Scene.containsModel (scene this) m = false ->
           Scene.models (scene this') = Scene.models (scene this)) /\
        (Scene.containsModel (scene this) m = true ->
           (count_occ Nat.eq_dec (Scene.models (scene this')) m + 1
            = count_occ Nat.eq_dec (Scene.models (scene this)) m)%nat) /\
        (forall x, x <> m ->
           count_occ Nat.eq_dec (Scene.models (scene this')) x
           = count_occ Nat.eq_dec (Scene.models (scene this)) x)
    end.
Proof.
  intros Hl.
  eexists. exists (Light.setEnabled false l).
  split; [ exact (onDisable_some _ _ Hl) | ].
  repeat split.
  destruct (model (data this)) as [ m | ]; cbn; [ | reflexivity ].
  repeat split.
  - now apply remove_first_absent.
  - now apply remove_first_present.
  - intros x Hx. now apply remove_first_other.
Qed.

(** ** Refresh and type change *)

Lemma seq_some (f g : M) (this this' : LightComponent) :
  f this = Some this' -> (f ;; g) this = g this'.
Proof. intros H. unfold seq. now rewrite H. Qed.

Lemma seq_none (f g : M) (this : LightComponent) :
  f this = None -> (f ;; g) this = None.
Proof. intros H. unfold seq. now rewrite H. Qed.

(** Normal form of a component and a light whose fields are known. *)
Ltac norm_state :=
  cbv beta iota delta
    [data light lightMap baked entity scene with_light with_scene
     Light.mask Light.shadowUpdateMode Light.enabled Light.calls
     Light.setCastShadows Light.setColor Light.setIntensity
     Light.setShadowDistance Light.setShadowResolution Light.setShadowBias
     Light.setNormalOffsetBias Light.setAttenuationEnd
     Light.setInnerConeAngle Light.setOuterConeAngle Light.setFalloffMode
     Light.setShadowType Light.setMask Light.setEnabled Light.receive
     Light.with_mask Light.with_shadowUpdateMode Light.with_enabled].

(** One handler run on a component whose fields are known. *)
Ltac exec :=
  cbv beta;
  rewrite ?onSetAffectDynamic_same, ?onSetaffectLightmapped_same, ?onSetBake_same;
  unfold onSetCastShadows, onSetColor, onSetIntensity, onSetShadowDistance,
    onSetShadowResolution, onSetShadowBias, onSetNormalOffsetBias, onSetRange,
    onSetInnerConeAngle, onSetOuterConeAngle, onSetFalloffMode, onSetShadowType,
    onSetShadowUpdateMode, onSetMask, pushMask, onLight, ret;
  norm_state;
  repeat match goal with
         | E : (_ =? _) = _ |- _ => rewrite E
         end;
  cbn [negb andb];
  reflexivity.

Lemma refreshHandlers_some (this : LightComponent) (l : Light.t) :
  light this = Some l ->
  refreshHandlers (data this) this
    = Some (with_light this (refreshed (data this) l)).
Proof.
  intros Hl.
  destruct this as [d lo lm bk e sc]. cbn in Hl. subst lo.
  destruct l as [m0 su en cs].
  unfold refreshed, refreshCalls, refreshHandlers. cbn [data].
  destruct (type d =? "directional") eqn:E1, (type d =? "point") eqn:E2,
    (type d =? "spot") eqn:E3;
    do 16 (erewrite seq_some by exec);
    rewrite onSetBake_same; unfold pushMask, onLight;
    norm_state; rewrite <- ?app_assoc; reflexivity.
Qed.

Lemma refreshProperties_some (this : LightComponent) (l : Light.t) :
  light this = Some l ->
  refreshProperties this
    = (if enabled (data this) && Entity.enabled (entity this)
       then onEnable else ret) (with_light this (refreshed (data this) l)).
Proof.
  intros Hl.
  destruct this as [d lo lm bk e sc]. cbn in Hl. subst lo.
  destruct l as [m0 su en cs].
  unfold refreshed, refreshCalls, refreshProperties. cbn [data entity].
  destruct (type d =? "directional") eqn:E1, (type d =? "point") eqn:E2,
    (type d =? "spot") eqn:E3;
    do 17 (erewrite seq_some by exec);
    norm_state; rewrite <- ?app_assoc;
    destruct (enabled d && Entity.enabled e); reflexivity.
Qed.

Lemma refreshProperties_unfold (this : LightComponent) :
  refreshProperties this
    = (refreshHandlers (data this) ;;
       (if enabled (data this) && Entity.enabled (entity this)
        then onEnable else ret)) this.
Proof.
  destruct (light this) as [ l | ] eqn:Hl.
  - rewrite (refreshProperties_some this l Hl).
    now rewrite (seq_some _ _ _ _ (refreshHandlers_some this l Hl)).
  - assert (H0 : forall v, onSetCastShadows "castShadows" v v this = None)
      by (intros v; unfold onSetCastShadows, onLight; now rewrite Hl).
    unfold refreshProperties, refreshHandlers.
    rewrite !seq_none; try reflexivity.
    + apply seq_none, H0.
    + apply H0.
Qed.

(** C8. refreshProperties runs the seventeen per-property handlers, each once
    and each with the stored value of its property as old and as new value,
    whatever these values are, and then onEnable if the component and its
    entity are both enabled, and nothing more if one of them is not.  With a
    render light at hand the handlers do not fail: the light receives
    [refreshCalls] after the calls it had received and ends as [refreshed]
    says, and the stored properties and the scene are those from before the
    handlers. *)
Theorem refreshProperties_reapplies_all (this : LightComponent) :
  let d := data this in
  let both := enabled d && Entity.enabled (entity this) in
  refreshProperties this
    = (refreshHandlers d ;; (if both then onEnable else ret)) this /\
  forall l, light this = Some l ->
    let this' := with_light this (refreshed d l) in
    refreshHandlers d this = Some this' /\
    (both = true -> refreshProperties this = onEnable this') /\
    (both = false -> refreshProperties this = Some this').
Proof.
  intros d both. split.
  - apply refreshProperties_unfold.
  - intros l Hl this'. split; [ now apply refreshHandlers_some | ].
    rewrite (refreshProperties_some this l Hl). fold d both this'.
    split; intros H; now rewrite H.
Qed.

Lemma refreshProperties_light (this : LightComponent) (l : Light.t) :
  light this = Some l ->
  exists this' extra,
    refreshProperties this = Some this' /\
    data this' = data this /\
    light this' =
      Some {| Light.mask := mask (data this);
              Light.shadowUpdateMode := shadowUpdateMode (data this);
              Light.enabled :=
                if enabled (data this) && Entity.enabled (entity this)
                then true else Light.enabled l;
              Light.calls :=
                Light.calls l ++ refreshCalls (data this) ++ extra |} /\
    extra = if enabled (data this) && Entity.enabled (entity this)
            then [Light.SetEnabled true] else [].
Proof.
  intros Hl. rewrite (refreshProperties_some this l Hl).
  destruct (enabled (data this) && Entity.enabled (entity this)).
  - eexists. exists [Light.SetEnabled true].
    split; [ apply onEnable_some; reflexivity | ].
    repeat split.
    unfold Light.setEnabled, Light.receive, Light.with_enabled, refreshed.
    cbn [light with_light with_scene Light.mask Light.calls Light.enabled
         Light.shadowUpdateMode].
    now rewrite <- app_assoc.
  - eexists. exists [].
    split; [ reflexivity | ].
    repeat split. unfold refreshed. cbn [light with_light].
    now rewrite app_nil_r.
Qed.

(** C7. When the old and the new type are equal onSetType returns at once:
    whatever the owning system's changeType would do, the component is left
    as it was.  When they differ, changeType is applied first, to the
    component with the old and the new type in that order, and
    refreshProperties runs next, on the component changeType leaves: the
    calls of the refresh reach the render light that changeType has put in
    place, after whatever that light had received. *)
Theorem onSetType_changeType_then_refresh (this : LightComponent)
    (name oldValue newValue : string) :
  (oldValue = newValue -> onSetType name oldValue newValue this = Some this) /\
  (oldValue <> newValue ->
     (forall this', changeType this oldValue newValue = Some this' ->
        onSetType name oldValue newValue this = refreshProperties this') /\
     (changeType this oldValue newValue = None ->
        onSetType name oldValue newValue this = None) /\
     (forall this' l', changeType this oldValue newValue = Some this' ->
        light this' = Some l' ->
        exists this'' l'' extra,
          onSetType name oldValue newValue this = Some this'' /\
          data this'' = data this' /\
          light this'' = Some l'' /\
          Light.calls l''
            = (Light.calls l' ++ refreshCalls (data this') ++ extra)%list)).
Proof.
  unfold onSetType. split.
  - intros H. apply String.eqb_eq in H. now rewrite H.
  - intros H. apply String.eqb_neq in H. rewrite H.
    split; [ | split ].
    + intros this' Hc. now rewrite Hc.
    + intros Hc. now rewrite Hc.
    + intros this' l' Hc Hl'. rewrite Hc.
      destruct (refreshProperties_light this' l' Hl')
        as (this'' & extra & Hr & Hd & Hl'' & _).
      eexists this'', _, extra.
      split; [ exact Hr | ]. split; [ exact Hd | ].
      split; [ exact Hl'' | reflexivity ].
Qed.

(** C9. Once the type has gone from 'point' to 'spot', refreshProperties
    forwards range (through setAttenuationEnd), falloffMode, innerConeAngle
    and outerConeAngle to the render light now in place, each exactly once
    and each with the value the component stores; this is also what
    onSetType does after the owning system has swapped the light. *)
Theorem point_to_spot_refresh (this : LightComponent) (l : Light.t) :
  type (data this) = "spot" ->
  light this = Some l ->
  exists this' l' new,
    refreshProperties this = Some this' /\
    light this' = Some l' /\
    Light.calls l' = (Light.calls l ++ new)%list /\
    filter Light.isSetAttenuationEnd new
      = [Light.SetAttenuationEnd (range (data this))] /\
    filter Light.isSetFalloffMode new
      = [Light.SetFalloffMode (falloffMode (data this))] /\
    filter Light.isSetInnerConeAngle new
      = [Light.SetInnerConeAngle (innerConeAngle (data this))] /\
    filter Light.isSetOuterConeAngle new
      = [Light.SetOuterConeAngle (outerConeAngle (data this))] /\
    forall this0 name,
      changeType this0 "point" "spot" = Some this ->
      onSetType name "point" "spot" this0 = Some this'.
Proof.
  intros Hty Hl.
  destruct (refreshProperties_light this l Hl) as (this' & extra & Hr & _ & Hl' & He).
  eexists this', _, (refreshCalls (data this) ++ extra)%list.
  split; [ exact Hr | ].
  split; [ exact Hl' | ].
  split; [ reflexivity | ].
  assert (Hx : forall p, filter p extra
                         = if enabled (data this) && Entity.enabled (entity this)
                           then filter p [Light.SetEnabled true] else [])
    by (intros p; rewrite He; now destruct (_ && _)).
  unfold refreshCalls. rewrite Hty.
  rewrite !filter_app, !Hx.
  repeat split; try (destruct (_ && _); reflexivity).
  intros this0 name Hc. unfold onSetType. cbn. now rewrite Hc.
Qed.

(** X11. Whatever mask the render light had, after refreshProperties it is
    the stored mask property: bits that the toggles had edited on the light
    are not kept. *)
Lemma refreshProperties_mask_is_stored (this : LightComponent) (l : Light.t) :
  light this = Some l ->
  exists this' l',
    refreshProperties this = Some this' /\
    light this' = Some l' /\
    Light.mask l' = mask (data this).
Proof.
  intros Hl.
  destruct (refreshProperties_light this l Hl) as (this' & extra & Hr & _ & Hl' & _).
  eexists this', _. split; [ exact Hr | ]. split; [ exact Hl' | reflexivity ].
Qed.

(** C10, as the code has it.  After refreshProperties the render light's
    mask is the stored mask property, whichever of affectDynamic,
    affectLightmapped and bake are true and whatever the lightMap and baked
    flags: onSetMask passes the stored mask on, and the three toggle
    handlers, called with equal old and new values, take neither branch, so
    that every setMask call of the refresh carries the stored mask.  The
    light's mask is therefore the one from before the refresh exactly when
    that one was the stored mask; bits that a toggle had edited on the light
    are not kept.  The three toggle handlers on their own, with equal old and
    new values, leave any mask as it is. *)
Theorem refreshProperties_mask_from_stored (this : LightComponent) (l : Light.t) :
  light this = Some l ->
  (exists this' l' new,
     refreshProperties this = Some this' /\
     data this' = data this /\
     light this' = Some l' /\
     Light.mask l' = mask (data this) /\
     Light.calls l' = (Light.calls l ++ new)%list /\
     filter Light.isSetMask new
       = [Light.SetMask (mask (data this)); Light.SetMask (mask (data this));
          Light.SetMask (mask (data this)); Light.SetMask (mask (data this))] /\
     (Light.mask l' = Light.mask l <-> mask (data this) = Light.mask l)) /\
  (forall (n1 n2 n3 : string) (v1 v2 v3 : bool),
     exists l',
       (onSetAffectDynamic n1 v1 v1 ;; onSetaffectLightmapped n2 v2 v2 ;;
        onSetBake n3 v3 v3) this = Some (with_light this l') /\
       Light.mask l' = Light.mask l /\
       Light.calls l' =
         (Light.calls l ++
          [Light.SetMask (Light.mask l); Light.SetMask (Light.mask l);
           Light.SetMask (Light.mask l)])%list).
Proof.
  intros Hl. split.
  - destruct (refreshProperties_light this l Hl)
      as (this' & extra & Hr & Hd & Hl' & He).
    eexists this', _, (refreshCalls (data this) ++ extra)%list.
    split; [ exact Hr | ].
    split; [ exact Hd | ].
    split; [ exact Hl' | ].
    split; [ reflexivity | ].
    split; [ reflexivity | ].
    split; [ | cbn [Light.mask]; split; intros H; exact H ].
    unfold refreshCalls. rewrite !filter_app, He.
    destruct (type (data this) =? "directional"),
      ((type (data this) =? "point") || (type (data this) =? "spot")),
      (type (data this) =? "spot"),
      (enabled (data this) && Entity.enabled (entity this)); reflexivity.
  - intros n1 n2 n3 v1 v2 v3.
    pose (l1 := Light.setMask (Light.mask l) l).
    pose (l2 := Light.setMask (Light.mask l) l1).
    exists (Light.setMask (Light.mask l) l2).
    split; [ | split; [ reflexivity | cbn; now rewrite <- !app_assoc ] ].
    rewrite (seq_some _ _ this (with_light this l1))
      by (rewrite onSetAffectDynamic_same; exact (pushMask_some this l Hl)).
    rewrite (seq_some _ _ _ (with_light this l2))
      by (rewrite onSetaffectLightmapped_same;
          exact (pushMask_some (with_light this l1) l1 eq_refl)).
    rewrite onSetBake_same.
    exact (pushMask_some (with_light this l2) l2 eq_refl).
Qed.

(** * Further properties of the handlers *)

(** ** The mask a toggle leaves *)

(** The edits of [onSetAffectDynamic], [onSetaffectLightmapped] and
    [onSetBake] on the light's mask [m], before the mask is passed to
    setMask; [lm] and [bk] are the flags [this.lightMap] and [this.baked]. *)
Definition affectDynamicMask (oldValue newValue : bool) (m : Z) : Z :=
  if negb oldValue && newValue then bitor m MASK_DYNAMIC
  else if oldValue && negb newValue then bitand m (bitnot MASK_DYNAMIC)
  else m.

Definition affectLightmappedMask (lm oldValue newValue : bool) (m : Z) : Z :=
  if negb oldValue && newValue then
    (if lm then bitand (bitor m MASK_BAKED) (bitnot MASK_LIGHTMAP)
     else bitor m MASK_BAKED)
  else if oldValue && negb newValue then
    (if lm then bitor (bitand m (bitnot MASK_BAKED)) MASK_LIGHTMAP
     else bitand m (bitnot MASK_BAKED))
  else m.

Definition bakeMask (bk oldValue newValue : bool) (m : Z) : Z :=
  if negb oldValue && newValue then
    (if bk then bitand (bitor m MASK_LIGHTMAP) (bitnot MASK_BAKED)
     else bitor m MASK_LIGHTMAP)
  else if oldValue && negb newValue then
    (if bk then bitor (bitand m (bitnot MASK_LIGHTMAP)) MASK_BAKED
     else bitand m (bitnot MASK_LIGHTMAP))
  else m.

(** The handler ends with the light's mask equal to [r]. *)
Definition ends_with_mask (h : M) (this : LightComponent) (r : Z) : Prop :=
  exists l', h this = Some (with_light this l') /\ Light.mask l' = r.

(** A signed 32-bit integer. *)
Definition int32 (z : Z) : Prop := - 2 ^ 31 <= z < 2 ^ 31.

Lemma onSetAffectDynamic_run (this : LightComponent) (l : Light.t)
    (name : string) (o n : bool) :
  light this = Some l ->
  onSetAffectDynamic name o n this
    = Some (with_light this
              (Light.setMask (affectDynamicMask o n (Light.mask l)) l)).
Proof.
  intros Hl. unfold onSetAffectDynamic, affectDynamicMask.
  destruct o, n; run_on Hl; reflexivity.
Qed.

Lemma onSetaffectLightmapped_run (this : LightComponent) (l : Light.t)
    (name : string) (o n : bool) :
  light this = Some l ->
  onSetaffectLightmapped name o n this
    = Some (with_light this
              (Light.setMask
                 (affectLightmappedMask (lightMap this) o n (Light.mask l)) l)).
Proof.
  intros Hl. unfold onSetaffectLightmapped, affectLightmappedMask.
  destruct o, n, (lightMap this) eqn:Hf; run_on Hl;
    rewrite ?Hf; reflexivity.
Qed.

Lemma onSetBake_run (this : LightComponent) (l : Light.t)
    (name : string) (o n : bool) :
  light this = Some l ->
  onSetBake name o n this
    = Some (with_light this
              (Light.setMask (bakeMask (baked this) o n (Light.mask l)) l)).
Proof.
  intros Hl. unfold onSetBake, bakeMask.
  destruct o, n, (baked this) eqn:Hf; run_on Hl;
    rewrite ?Hf; reflexivity.
Qed.

(** Two handlers that touch the light only, one after the other. *)
Lemma seq_on_light (h1 h2 : M) (this : LightComponent) (l1 l2 : Light.t) :
  h1 this = Some (with_light this l1) ->
  h2 (with_light this l1) = Some (with_light this l2) ->
  (h1 ;; h2) this = Some (with_light this l2).
Proof. intros H1 H2. now rewrite (seq_some _ _ _ _ H1). Qed.

Ltac bits_free :=
  unfold sets, clears, keeps_outside;
  let i := fresh "i" in
  let Hi := fresh "Hi" in
  let Hb := fresh "Hb" in
  intros i Hi Hb;
  repeat first [ rewrite bitor_testbit by assumption
               | rewrite bitandnot_testbit by assumption ];
  rewrite ?Z.lor_spec in Hb;
  repeat match goal with
         | |- context [Z.testbit ?x i] => destruct (Z.testbit x i)
         | H : context [Z.testbit ?x i] |- _ => destruct (Z.testbit x i)
         end;
  cbn in Hb |- *;
  first [ reflexivity | discriminate Hb ].

(** X3. affectDynamic going from false to true sets MASK_DYNAMIC in the
    light's mask, going from true to false clears it; the other bits of the
    32-bit mask stay, the result is passed to setMask, and neither the
    lightMap nor the baked flag plays a part. *)
Theorem affectDynamic_toggle_bits (this : LightComponent) (l : Light.t)
    (name : string) :
  light this = Some l ->
  (exists r,
     pushed (onSetAffectDynamic name false true) r this l /\
     sets MASK_DYNAMIC r /\
     keeps_outside MASK_DYNAMIC (Light.mask l) r) /\
  (exists r,
     pushed (onSetAffectDynamic name true false) r this l /\
     clears MASK_DYNAMIC r /\
     keeps_outside MASK_DYNAMIC (Light.mask l) r).
Proof using MASK_DYNAMIC.
  intros Hl. split.
  - exists (bitor (Light.mask l) MASK_DYNAMIC).
    split; [ | split; bits_free ].
    apply pushed_intro. exact (onSetAffectDynamic_run this l name false true Hl).
  - exists (bitand (Light.mask l) (bitnot MASK_DYNAMIC)).
    split; [ | split; bits_free ].
    apply pushed_intro. exact (onSetAffectDynamic_run this l name true false Hl).
Qed.

(** ** How the toggles compose *)

Lemma toggles_in_sequence (this : LightComponent) (l : Light.t)
    (h1 h2 : M) (f1 f2 : Z -> Z) :
  light this = Some l ->
  (forall this0 l0, light this0 = Some l0 -> lightMap this0 = lightMap this ->
     baked this0 = baked this ->
     h1 this0 = Some (with_light this0 (Light.setMask (f1 (Light.mask l0)) l0))) ->
  (forall this0 l0, light this0 = Some l0 -> lightMap this0 = lightMap this ->
     baked this0 = baked this ->
     h2 this0 = Some (with_light this0 (Light.setMask (f2 (Light.mask l0)) l0))) ->
  ends_with_mask (h1 ;; h2) this (f2 (f1 (Light.mask l))).
Proof.
  intros Hl H1 H2.
  exists (Light.setMask (f2 (f1 (Light.mask l)))
            (Light.setMask (f1 (Light.mask l)) l)).
  split; [ | reflexivity ].
  apply (seq_on_light _ _ _ (Light.setMask (f1 (Light.mask l)) l)).
  - now apply H1.
  - exact (H2 (with_light this (Light.setMask (f1 (Light.mask l)) l)) _
              eq_refl eq_refl eq_refl).
Qed.

Lemma affectLightmapped_step (this : LightComponent) (name : string) (o n : bool) :
  forall this0 l0, light this0 = Some l0 -> lightMap this0 = lightMap this ->
    baked this0 = baked this ->
    onSetaffectLightmapped name o n this0
      = Some (with_light this0
                (Light.setMask
                   (affectLightmappedMask (lightMap this) o n (Light.mask l0)) l0)).
Proof.
  intros this0 l0 Hl0 Hlm _. rewrite <- Hlm.
  now apply onSetaffectLightmapped_run.
Qed.

Lemma bake_step (this : LightComponent) (name : string) (o n : bool) :
  forall this0 l0, light this0 = Some l0 -> lightMap this0 = lightMap this ->
    baked this0 = baked this ->
    onSetBake name o n this0
      = Some (with_light this0
                (Light.setMask (bakeMask (baked this) o n (Light.mask l0)) l0)).
Proof.
  intros this0 l0 Hl0 _ Hbk. rewrite <- Hbk.
  now apply onSetBake_run.
Qed.

(** X4. Turning a toggle on and off again is not the identity on the mask.
    With the lightMap flag set, affectLightmapped going on and then off
    leaves MASK_BAKED cleared and MASK_LIGHTMAP set, whatever these bits
    were before; with the baked flag set, bake going on and then off leaves
    MASK_LIGHTMAP cleared and MASK_BAKED set.  The other bits of the 32-bit
    mask are kept. *)
Theorem toggle_on_then_off (this : LightComponent) (l : Light.t)
    (name1 name2 : string) :
  light this = Some l ->
  Z.land MASK_BAKED MASK_LIGHTMAP = 0 ->
  (lightMap this = true ->
   exists r,
     ends_with_mask (onSetaffectLightmapped name1 false true ;;
                     onSetaffectLightmapped name2 true false) this r /\
     clears MASK_BAKED r /\ sets MASK_LIGHTMAP r /\
     keeps_outside (Z.lor MASK_BAKED MASK_LIGHTMAP) (Light.mask l) r) /\
  (baked this = true ->
   exists r,
     ends_with_mask (onSetBake name1 false true ;;
                     onSetBake name2 true false) this r /\
     clears MASK_LIGHTMAP r /\ sets MASK_BAKED r /\
     keeps_outside (Z.lor MASK_BAKED MASK_LIGHTMAP) (Light.mask l) r).
Proof using MASK_BAKED MASK_LIGHTMAP.
  intros Hl Hdisj. split; intros Hf.
  - eexists. split.
    + apply (toggles_in_sequence this l _ _ _ _ Hl
               (affectLightmapped_step this name1 false true)
               (affectLightmapped_step this name2 true false)).
    + rewrite Hf. unfold affectLightmappedMask. cbn [negb andb].
      remember (Light.mask l) as m.
      split; [ | split ]; bits Hdisj.
  - eexists. split.
    + apply (toggles_in_sequence this l _ _ _ _ Hl
               (bake_step this name1 false true)
               (bake_step this name2 true false)).
    + rewrite Hf. unfold bakeMask. cbn [negb andb].
      remember (Light.mask l) as m.
      split; [ | split ]; bits Hdisj.
Qed.

(** X5. The order of the toggles matters.  With the lightMap and baked flags
    both set, affectLightmapped going on and then bake going on leaves
    MASK_LIGHTMAP set and MASK_BAKED cleared, the opposite of what the two
    handlers leave in the other order; when MASK_BAKED has a bit among the
    32, the two orders end with different masks. *)
Theorem toggle_order_matters (this : LightComponent) (l : Light.t)
    (name1 name2 : string) :
  light this = Some l ->
  lightMap this = true ->
  baked this = true ->
  Z.land MASK_BAKED MASK_LIGHTMAP = 0 ->
  exists r r',
    ends_with_mask (onSetaffectLightmapped name1 false true ;;
                    onSetBake name2 false true) this r /\
    ends_with_mask (onSetBake name2 false true ;;
                    onSetaffectLightmapped name1 false true) this r' /\
    sets MASK_LIGHTMAP r /\ clears MASK_BAKED r /\
    keeps_outside (Z.lor MASK_BAKED MASK_LIGHTMAP) (Light.mask l) r /\
    ((exists i, 0 <= i < 32 /\ Z.testbit MASK_BAKED i = true) -> r <> r').
Proof using MASK_BAKED MASK_LIGHTMAP.
  intros Hl Hlm Hbk Hdisj.
  eexists. eexists. split; [ | split ].
  - apply (toggles_in_sequence this l _ _ _ _ Hl
             (affectLightmapped_step this name1 false true)
             (bake_step this name2 false true)).
  - apply (toggles_in_sequence this l _ _ _ _ Hl
             (bake_step this name2 false true)
             (affectLightmapped_step this name1 false true)).
  - rewrite Hlm, Hbk. unfold affectLightmappedMask, bakeMask. cbn [negb andb].
    remember (Light.mask l) as m.
    assert (Hc : clears MASK_BAKED
                   (bitand (bitor (bitand (bitor m MASK_BAKED) (bitnot MASK_LIGHTMAP))
                                  MASK_LIGHTMAP) (bitnot MASK_BAKED)))
      by bits Hdisj.
    assert (Hs : sets MASK_BAKED
                   (bitand (bitor (bitand (bitor m MASK_LIGHTMAP) (bitnot MASK_BAKED))
                                  MASK_BAKED) (bitnot MASK_LIGHTMAP)))
      by bits Hdisj.
    split; [ bits Hdisj | ]. split; [ exact Hc | ]. split; [ bits Hdisj | ].
    intros (i & Hi & Hb) Heq.
    specialize (Hc i Hi Hb). specialize (Hs i Hi Hb).
    rewrite Heq in Hc. congruence.
Qed.

(** ** Signed 32-bit masks *)

Lemma int32_shiftr (z : Z) :
  int32 z <-> (Z.shiftr z 31 = 0 \/ Z.shiftr z 31 = -1).
Proof.
  unfold int32. rewrite Z.shiftr_div_pow2 by lia.
  change (2 ^ 31) with 2147483648.
  pose proof (Z.div_mod z 2147483648 ltac:(lia)) as Hd.
  pose proof (Z.mod_pos_bound z 2147483648 ltac:(lia)) as Hm.
  split; intros H; lia.
Qed.

Lemma ToInt32_int32 (z : Z) : int32 (ToInt32 z).
Proof.
  unfold int32, ToInt32.
  pose proof (Z.mod_pos_bound (z + 2 ^ 31) (2 ^ 32) ltac:(lia)).
  lia.
Qed.

Lemma ToInt32_id (z : Z) : int32 z -> ToInt32 z = z.
Proof.
  unfold int32, ToInt32. intros Hz.
  rewrite Z.mod_small by lia. lia.
Qed.

Lemma bitor_int32 (x y : Z) : int32 (bitor x y).
Proof.
  unfold bitor. apply int32_shiftr. rewrite Z.shiftr_lor.
  destruct (proj1 (int32_shiftr _) (ToInt32_int32 x)) as [Hx | Hx];
    destruct (proj1 (int32_shiftr _) (ToInt32_int32 y)) as [Hy | Hy];
    rewrite Hx, Hy; cbn; auto.
Qed.

Lemma bitand_int32 (x y : Z) : int32 (bitand x y).
Proof.
  unfold bitand. apply int32_shiftr. rewrite Z.shiftr_land.
  destruct (proj1 (int32_shiftr _) (ToInt32_int32 x)) as [Hx | Hx];
    destruct (proj1 (int32_shiftr _) (ToInt32_int32 y)) as [Hy | Hy];
    rewrite Hx, Hy; cbn; auto.
Qed.

Lemma int32_eq (x y : Z) :
  int32 x -> int32 y ->
  (forall i, 0 <= i < 32 -> Z.testbit x i = Z.testbit y i) ->
  x = y.
Proof.
  intros Hx Hy H.
  rewrite <- (ToInt32_id x Hx), <- (ToInt32_id y Hy).
  unfold ToInt32.
  assert (Hmod : forall z, (z + 2 ^ 31) mod 2 ^ 32
                           = (z mod 2 ^ 32 + 2 ^ 31) mod 2 ^ 32)
    by (intros z; now rewrite Zplus_mod_idemp_l).
  rewrite (Hmod x), (Hmod y).
  replace (x mod 2 ^ 32) with (y mod 2 ^ 32); [ reflexivity | ].
  apply Z.bits_inj'. intros i Hi.
  destruct (Z.lt_ge_cases i 32) as [Hlt | Hge].
  - rewrite !Z.mod_pow2_bits_low by lia. symmetry. apply H. lia.
  - now rewrite !Z.mod_pow2_bits_high by lia.
Qed.

(** X6. Without the lightMap and baked flags the two toggles do not
    interfere: whatever transitions affectLightmapped and bake make, the two
    orders of the handlers end with the same mask. *)
Theorem toggles_commute_without_flags (this : LightComponent) (l : Light.t)
    (name1 name2 : string) (o1 n1 o2 n2 : bool) :
  light this = Some l ->
  lightMap this = false ->
  baked this = false ->
  Z.land MASK_BAKED MASK_LIGHTMAP = 0 ->
  exists r,
    ends_with_mask (onSetaffectLightmapped name1 o1 n1 ;;
                    onSetBake name2 o2 n2) this r /\
    ends_with_mask (onSetBake name2 o2 n2 ;;
                    onSetaffectLightmapped name1 o1 n1) this r.
Proof using MASK_BAKED MASK_LIGHTMAP.
  intros Hl Hlm Hbk Hdisj.
  pose proof (toggles_in_sequence this l _ _ _ _ Hl
                (affectLightmapped_step this name1 o1 n1)
                (bake_step this name2 o2 n2)) as H1.
  pose proof (toggles_in_sequence this l _ _ _ _ Hl
                (bake_step this name2 o2 n2)
                (affectLightmapped_step this name1 o1 n1)) as H2.
  rewrite Hlm, Hbk in H1, H2.
  eexists. split; [ exact H1 | ].
  replace (bakeMask false o2 n2 (affectLightmappedMask false o1 n1 (Light.mask l)))
    with (affectLightmappedMask false o1 n1 (bakeMask false o2 n2 (Light.mask l)));
    [ exact H2 | ].
  unfold affectLightmappedMask, bakeMask.
  remember (Light.mask l) as m.
  destruct o1, n1, o2, n2; cbn [negb andb]; try reflexivity;
    (apply int32_eq;
     [ first [ apply bitor_int32 | apply bitand_int32 ]
     | first [ apply bitor_int32 | apply bitand_int32 ]
     | intros i Hi;
       repeat first [ rewrite bitor_testbit by assumption
                    | rewrite bitandnot_testbit by assumption ];
       pose proof (disjoint_bits _ _ i Hdisj) as D1;
       destruct (Z.testbit m i), (Z.testbit MASK_BAKED i),
         (Z.testbit MASK_LIGHTMAP i); cbn in D1 |- *;
       first [ reflexivity | discriminate (D1 eq_refl) ] ]).
Qed.

(** X7. onSetMask stores the new mask as it is, whatever its size, while a
    toggle that changes value leaves a signed 32-bit mask, whatever the mask
    was before. *)
Theorem toggle_mask_is_int32 (this : LightComponent) (l : Light.t)
    (name : string) :
  light this = Some l ->
  (forall o v, pushed (onSetMask name o v) v this l) /\
  (forall o n, o <> n ->
     exists r, pushed (onSetAffectDynamic name o n) r this l /\ int32 r) /\
  (forall o n, o <> n ->
     exists r, pushed (onSetaffectLightmapped name o n) r this l /\ int32 r) /\
  (forall o n, o <> n ->
     exists r, pushed (onSetBake name o n) r this l /\ int32 r).
Proof.
  intros Hl. split; [ | split; [ | split ] ].
  - intros o v. apply pushed_intro. unfold onSetMask. now apply onLight_some.
  - intros o n Hon. eexists. split.
    + apply pushed_intro. exact (onSetAffectDynamic_run this l name o n Hl).
    + unfold affectDynamicMask.
      destruct o, n; try (now elim Hon); cbn [negb andb];
        first [ apply bitor_int32 | apply bitand_int32 ].
  - intros o n Hon. eexists. split.
    + apply pushed_intro. exact (onSetaffectLightmapped_run this l name o n Hl).
    + unfold affectLightmappedMask.
      destruct o, n, (lightMap this); try (now elim Hon); cbn [negb andb];
        first [ apply bitor_int32 | apply bitand_int32 ].
  - intros o n Hon. eexists. split.
    + apply pushed_intro. exact (onSetBake_run this l name o n Hl).
    + unfold bakeMask.
      destruct o, n, (baked this); try (now elim Hon); cbn [negb andb];
        first [ apply bitor_int32 | apply bitand_int32 ].
Qed.

(** X13. A toggle handler run a second time with the same old and new
    values leaves the mask the first run left: replaying a change does not
    move the mask any further, whatever the flags and whatever the masks. *)
Theorem toggle_replay (this : LightComponent) (l : Light.t)
    (name : string) (o n : bool) :
  light this = Some l ->
  (exists r,
     ends_with_mask (onSetAffectDynamic name o n) this r /\
     ends_with_mask (onSetAffectDynamic name o n ;;
                     onSetAffectDynamic name o n) this r) /\
  (exists r,
     ends_with_mask (onSetaffectLightmapped name o n) this r /\
     ends_with_mask (onSetaffectLightmapped name o n ;;
                     onSetaffectLightmapped name o n) this r) /\
  (exists r,
     ends_with_mask (onSetBake name o n) this r /\
     ends_with_mask (onSetBake name o n ;; onSetBake name o n) this r).
Proof.
  intros Hl.
  assert (Hbits : forall x y : Z,
             int32 x -> int32 y ->
             (forall i, 0 <= i < 32 -> Z.testbit x i = Z.testbit y i) -> x = y)
    by exact int32_eq.
  split; [ | split ].
  - exists (affectDynamicMask o n (Light.mask l)). split.
    + eexists. split; [ exact (onSetAffectDynamic_run this l name o n Hl) | reflexivity ].
    + replace (affectDynamicMask o n (Light.mask l))
        with (affectDynamicMask o n (affectDynamicMask o n (Light.mask l))) at 1.
      * apply (toggles_in_sequence this l _ _ _ _ Hl);
          intros this0 l0 Hl0 _ _; now apply onSetAffectDynamic_run.
      * unfold affectDynamicMask.
        destruct o, n; cbn [negb andb]; try reflexivity;
          (apply Hbits;
           [ first [ apply bitor_int32 | apply bitand_int32 ]
           | first [ apply bitor_int32 | apply bitand_int32 ]
           | intros i Hi;
             repeat first [ rewrite bitor_testbit by assumption
                          | rewrite bitandnot_testbit by assumption ];
             destruct (Z.testbit (Light.mask l) i), (Z.testbit MASK_DYNAMIC i);
             reflexivity ]).
  - exists (affectLightmappedMask (lightMap this) o n (Light.mask l)). split.
    + eexists. split;
        [ exact (onSetaffectLightmapped_run this l name o n Hl) | reflexivity ].
    + replace (affectLightmappedMask (lightMap this) o n (Light.mask l))
        with (affectLightmappedMask (lightMap this) o n
                (affectLightmappedMask (lightMap this) o n (Light.mask l))) at 1.
      * apply (toggles_in_sequence this l _ _ _ _ Hl
                 (affectLightmapped_step this name o n)
                 (affectLightmapped_step this name o n)).
      * unfold affectLightmappedMask.
        destruct o, n, (lightMap this); cbn [negb andb]; try reflexivity;
          (apply Hbits;
           [ first [ apply bitor_int32 | apply bitand_int32 ]
           | first [ apply bitor_int32 | apply bitand_int32 ]
           | intros i Hi;
             repeat first [ rewrite bitor_testbit by assumption
                          | rewrite bitandnot_testbit by assumption ];
             destruct (Z.testbit (Light.mask l) i), (Z.testbit MASK_BAKED i),
               (Z.testbit MASK_LIGHTMAP i); reflexivity ]).
  - exists (bakeMask (baked this) o n (Light.mask l)). split.
    + eexists. split; [ exact (onSetBake_run this l name o n Hl) | reflexivity ].
    + replace (bakeMask (baked this) o n (Light.mask l))
        with (bakeMask (baked this) o n
                (bakeMask (baked this) o n (Light.mask l))) at 1.
      * apply (toggles_in_sequence this l _ _ _ _ Hl
                 (bake_step this name o n) (bake_step this name o n)).
      * unfold bakeMask.
        destruct o, n, (baked this); cbn [negb andb]; try reflexivity;
          (apply Hbits;
           [ first [ apply bitor_int32 | apply bitand_int32 ]
           | first [ apply bitor_int32 | apply bitand_int32 ]
           | intros i Hi;
             repeat first [ rewrite bitor_testbit by assumption
                          | rewrite bitandnot_testbit by assumption ];
             destruct (Z.testbit (Light.mask l) i), (Z.testbit MASK_BAKED i),
               (Z.testbit MASK_LIGHTMAP i); reflexivity ]).
Qed.

(** ** A null render light *)

(** X1. With [this.light] null every call that reaches the light faults:
    the ungated handlers, the three toggles whatever the old and new values,
    the gated handlers when the type matches, updateShadow, onEnable,
    onDisable (also for a component without a model) and refreshProperties.
    No handler checks the light before it uses it. *)
Theorem null_light_faults (this : LightComponent) (name : string) :
  light this = None ->
  (forall o n, onSetCastShadows name o n this = None) /\
  (forall o n, onSetColor name o n this = None) /\
  (forall o n, onSetIntensity name o n this = None) /\
  (forall o n, onSetShadowResolution name o n this = None) /\
  (forall o n, onSetShadowBias name o n this = None) /\
  (forall o n, onSetNormalOffsetBias name o n this = None) /\
  (forall o n, onSetShadowType name o n this = None) /\
  (forall o n, onSetShadowUpdateMode name o n this = None) /\
  (forall o n, onSetMask name o n this = None) /\
  (forall o n, onSetAffectDynamic name o n this = None) /\
  (forall o n, onSetaffectLightmapped name o n this = None) /\
  (forall o n, onSetBake name o n this = None) /\
  (forall o n, type (data this) = "directional" ->
     onSetShadowDistance name o n this = None) /\
  (forall o n, type (data this) = "point" \/ type (data this) = "spot" ->
     onSetRange name o n this = None) /\
  (forall o n, type (data this) = "point" \/ type (data this) = "spot" ->
     onSetFalloffMode name o n this = None) /\
  (forall o n, type (data this) = "spot" ->
     onSetInnerConeAngle name o n this = None) /\
  (forall o n, type (data this) = "spot" ->
     onSetOuterConeAngle name o n this = None) /\
  updateShadow this = None /\
  onEnable this = None /\
  onDisable this = None /\
  refreshProperties this = None.
Proof.
  intros Hl.
  assert (Hon : forall f, onLight f this = None)
    by (intros f; unfold onLight; now rewrite Hl).
  repeat apply conj; try (intros o n);
    try (unfold onSetCastShadows, onSetColor, onSetIntensity,
           onSetShadowResolution, onSetShadowBias, onSetNormalOffsetBias,
           onSetShadowType, onSetShadowUpdateMode, onSetMask, updateShadow;
         now apply Hon).
  - unfold onSetAffectDynamic, maskOr, maskAndNot, pushMask, seq, ret.
    destruct o, n; cbn; now rewrite ?Hon.
  - unfold onSetaffectLightmapped, maskOr, maskAndNot, pushMask, seq, ret.
    destruct o, n; cbn; now rewrite ?Hon.
  - unfold onSetBake, maskOr, maskAndNot, pushMask, seq, ret.
    destruct o, n; cbn; now rewrite ?Hon.
  - intros Hty. unfold onSetShadowDistance. rewrite Hty. cbn. apply Hon.
  - intros [Hty | Hty]; unfold onSetRange; rewrite Hty; cbn; apply Hon.
  - intros [Hty | Hty]; unfold onSetFalloffMode; rewrite Hty; cbn; apply Hon.
  - intros Hty. unfold onSetInnerConeAngle. rewrite Hty. cbn. apply Hon.
  - intros Hty. unfold onSetOuterConeAngle. rewrite Hty. cbn. apply Hon.
  - unfold onEnable, super_onEnable, seq, ret. now rewrite Hon.
  - unfold onDisable, super_onDisable, seq, ret. now rewrite Hon.
  - unfold refreshProperties. apply seq_none.
    unfold onSetCastShadows. apply Hon.
Qed.

(** ** What the handlers leave alone *)

(** X2. castShadows, color, intensity, shadowResolution, normalOffsetBias,
    shadowType and mask are forwarded to the render light for every type,
    the known three or any other string, and whatever the old value is;
    shadowUpdateMode is written to the light's field and reaches the light
    through no method call; updateShadow is passed on as it is. *)
Theorem ungated_handlers_forward (this : LightComponent) (name : string) :
  forwarded updateShadow Light.UpdateShadow this /\
  (forall o v, forwarded (onSetCastShadows name o v) (Light.SetCastShadows v) this) /\
  (forall o v, forwarded (onSetColor name o v) (Light.SetColor v) this) /\
  (forall o v, forwarded (onSetIntensity name o v) (Light.SetIntensity v) this) /\
  (forall o v, forwarded (onSetShadowResolution name o v)
                         (Light.SetShadowResolution v) this) /\
  (forall o v, forwarded (onSetNormalOffsetBias name o v)
                         (Light.SetNormalOffsetBias v) this) /\
  (forall o v, forwarded (onSetShadowType name o v) (Light.SetShadowType v) this) /\
  (forall o v l, light this = Some l ->
     exists l',
       onSetMask name o v this = Some (with_light this l') /\
       Light.mask l' = v /\
       Light.calls l' = (Light.calls l ++ [Light.SetMask v])%list) /\
  (forall o v l, light this = Some l ->
     exists l',
       onSetShadowUpdateMode name o v this = Some (with_light this l') /\
       Light.shadowUpdateMode l' = v /\
       Light.calls l' = Light.calls l /\
       Light.mask l' = Light.mask l /\
       Light.enabled l' = Light.enabled l).
Proof.
  unfold forwarded.
  split; [ intros l Hl; unfold updateShadow; now apply onLight_some | ].
  repeat apply conj; intros o v l Hl;
    try (unfold onSetCastShadows, onSetColor, onSetIntensity,
           onSetShadowResolution, onSetNormalOffsetBias, onSetShadowType;
         now apply onLight_some).
  - exists (Light.setMask v l). split; [ | split; reflexivity ].
    unfold onSetMask. now apply onLight_some.
  - exists (Light.with_shadowUpdateMode v l).
    split; [ | repeat split ].
    unfold onSetShadowUpdateMode. now apply onLight_some.
Qed.

(** The handler changes nothing but the render light; on the light it
    leaves the active state alone and adds at most one method call. *)
Definition light_only (h : M) : Prop :=
  forall this this', h this = Some this' ->
    data this' = data this /\
    lightMap this' = lightMap this /\
    baked this' = baked this /\
    entity this' = entity this /\
    scene this' = scene this /\
    forall l, light this = Some l ->
      exists l' new,
        light this' = Some l' /\
        Light.enabled l' = Light.enabled l /\
        Light.calls l' = (Light.calls l ++ new)%list /\
        (List.length new <= 1)%nat.

Ltac light_only_tac :=
  let this := fresh "this" in
  let this' := fresh "this'" in
  let H := fresh "H" in
  unfold light_only;
  intros this this' H;
  destruct this as [d [ l | ] lm bk e sc];
  cbv beta iota delta
    [onSetCastShadows onSetColor onSetIntensity onSetShadowDistance
     onSetShadowResolution onSetShadowBias onSetNormalOffsetBias onSetRange
     onSetInnerConeAngle onSetOuterConeAngle onSetFalloffMode onSetShadowType
     onSetShadowUpdateMode onSetMask onSetAffectDynamic onSetaffectLightmapped
     onSetBake updateShadow pushMask maskOr maskAndNot seq ret onLight
     data light lightMap baked entity scene with_light] in H;
  repeat match type of H with
         | context [if ?b then _ else _] => destruct b
         end;
  cbv beta iota delta
    [data light lightMap baked entity scene with_light] in H;
  try discriminate H;
  injection H as <-;
  repeat (split; [ reflexivity | ]);
  let l0 := fresh "l" in
  let Hl0 := fresh "Hl" in
  intros l0 Hl0; cbn in Hl0;
  try discriminate Hl0;
  injection Hl0 as <-;
  eexists; cbn;
  first [ exists []; repeat split; [ symmetry; apply app_nil_r | cbn; lia ]
        | eexists [_]; repeat split; cbn; lia ].

(** X8. Every property handler, and updateShadow, changes nothing but the
    render light: the stored properties, the lightMap and baked flags, the
    entity and the scene are as they were.  On the light it never changes
    the active state and makes at most one method call. *)
Theorem handlers_touch_light_only (name : string) :
  (forall o n, light_only (onSetCastShadows name o n)) /\
  (forall o n, light_only (onSetColor name o n)) /\
  (forall o n, light_only (onSetIntensity name o n)) /\
  (forall o n, light_only (onSetShadowDistance name o n)) /\
  (forall o n, light_only (onSetShadowResolution name o n)) /\
  (forall o n, light_only (onSetShadowBias name o n)) /\
  (forall o n, light_only (onSetNormalOffsetBias name o n)) /\
  (forall o n, light_only (onSetRange name o n)) /\
  (forall o n, light_only (onSetInnerConeAngle name o n)) /\
  (forall o n, light_only (onSetOuterConeAngle name o n)) /\
  (forall o n, light_only (onSetFalloffMode name o n)) /\
  (forall o n, light_only (onSetShadowType name o n)) /\
  (forall o n, light_only (onSetShadowUpdateMode name o n)) /\
  (forall o n, light_only (onSetMask name o n)) /\
  (forall o n, light_only (onSetAffectDynamic name o n)) /\
  (forall o n, light_only (onSetaffectLightmapped name o n)) /\
  (forall o n, light_only (onSetBake name o n)) /\
  light_only updateShadow.
Proof.
  repeat apply conj; [ intros o n; light_only_tac .. | light_only_tac ].
Qed.

(** ** Refresh, again *)

Lemma refreshProperties_result (this : LightComponent) (l : Light.t) :
  light this = Some l ->
  refreshProperties this
    = Some (if enabled (data this) && Entity.enabled (entity this)
            then with_scene
                   (with_light this
                      (Light.setEnabled true (refreshed (data this) l)))
                   (sceneAfterEnable this)
            else with_light this (refreshed (data this) l)).
Proof.
  intros Hl. rewrite (refreshProperties_some this l Hl).
  destruct (enabled (data this) && Entity.enabled (entity this)).
  - exact (onEnable_some (with_light this (refreshed (data this) l)) _ eq_refl).
  - reflexivity.
Qed.

Ltac light_fields :=
  unfold Light.setEnabled, Light.receive, Light.with_enabled, refreshed;
  cbn [light with_light with_scene Light.mask Light.calls Light.enabled
       Light.shadowUpdateMode].

Lemma sceneAfterEnable_idem (this : LightComponent) :
  sceneAfterEnable (with_scene this (sceneAfterEnable this))
    = sceneAfterEnable this.
Proof.
  unfold sceneAfterEnable. cbn [data scene with_scene].
  destruct (model (data this)) as [ m | ]; [ | reflexivity ].
  destruct (Scene.containsModel (scene this) m) eqn:Hc.
  - now rewrite Hc.
  - now rewrite containsModel_addModel.
Qed.

(** X9. A second refreshProperties right after the first repeats the same
    calls on the render light and changes nothing else: the light's mask,
    shadowUpdateMode and active state, the stored properties and the scene
    are those the first refresh left (no second addModel). *)
Theorem refreshProperties_twice (this : LightComponent) (l : Light.t) :
  light this = Some l ->
  exists this1 this2 l1 l2 new,
    refreshProperties this = Some this1 /\
    refreshProperties this1 = Some this2 /\
    light this1 = Some l1 /\
    light this2 = Some l2 /\
    Light.calls l1 = (Light.calls l ++ new)%list /\
    Light.calls l2 = (Light.calls l1 ++ new)%list /\
    Light.mask l2 = Light.mask l1 /\
    Light.shadowUpdateMode l2 = Light.shadowUpdateMode l1 /\
    Light.enabled l2 = Light.enabled l1 /\
    data this2 = data this1 /\
    scene this2 = scene this1.
Proof.
  intros Hl.
  pose proof (refreshProperties_result this l Hl) as H1.
  destruct (enabled (data this) && Entity.enabled (entity this)) eqn:Hb.
  - set (l1 := Light.setEnabled true (refreshed (data this) l)) in *.
    set (this1 := with_scene (with_light this l1) (sceneAfterEnable this)) in *.
    pose proof (refreshProperties_result this1 l1 eq_refl) as H2.
    cbn [data entity with_scene with_light this1] in H2. rewrite Hb in H2.
    eexists this1, _, l1, _,
      (refreshCalls (data this) ++ [Light.SetEnabled true])%list.
    split; [ exact H1 | ]. split; [ exact H2 | ].
    split; [ reflexivity | ]. split; [ reflexivity | ].
    split; [ subst l1; light_fields; now rewrite <- app_assoc | ].
    split; [ light_fields; now rewrite <- app_assoc | ].
    repeat (split; [ reflexivity | ]).
    exact (sceneAfterEnable_idem this).
  - set (l1 := refreshed (data this) l) in *.
    pose proof (refreshProperties_result (with_light this l1) l1 eq_refl) as H2.
    cbn [data entity with_light] in H2. rewrite Hb in H2.
    eexists (with_light this l1), _, l1, _, (refreshCalls (data this)).
    split; [ exact H1 | ]. split; [ exact H2 | ].
    repeat (split; [ reflexivity | ]). reflexivity.
Qed.

(** The setters that depend on the type of the light. *)
Definition isGatedCall (c : Light.call) : bool :=
  match c with
  | Light.SetShadowDistance _ | Light.SetAttenuationEnd _
  | Light.SetInnerConeAngle _ | Light.SetOuterConeAngle _
  | Light.SetFalloffMode _ => true
  | _ => false
  end.

(** X10. What a refresh forwards of the type-dependent properties: for a
    directional light shadowDistance alone, for a point light range and
    falloffMode alone, and for a stored type that is none of 'directional',
    'point' and 'spot' nothing at all, while the eleven calls of the other
    properties, and the enabling, are made as for any light: an unknown
    type is passed over in silence. *)
Theorem refreshProperties_by_type (this : LightComponent) (l : Light.t) :
  light this = Some l ->
  let d := data this in
  exists this' l' new,
    refreshProperties this = Some this' /\
    light this' = Some l' /\
    Light.calls l' = (Light.calls l ++ new)%list /\
    (type d = "directional" ->
       filter isGatedCall new = [Light.SetShadowDistance (shadowDistance d)]) /\
    (type d = "point" ->
       filter isGatedCall new
         = [Light.SetAttenuationEnd (range d);
            Light.SetFalloffMode (falloffMode d)]) /\
    (type d <> "directional" -> type d <> "point" -> type d <> "spot" ->
       new = ([Light.SetCastShadows (castShadows d); Light.SetColor (color d);
               Light.SetIntensity (intensity d);
               Light.SetShadowResolution (shadowResolution d);
               Light.SetShadowBias
                 (PrimFloat.mul (PrimFloat.opp 0.01%float) (shadowBias d));
               Light.SetNormalOffsetBias (normalOffsetBias d);
               Light.SetShadowType (shadowType d);
               Light.SetMask (mask d); Light.SetMask (mask d);
               Light.SetMask (mask d); Light.SetMask (mask d)] ++
              (if enabled d && Entity.enabled (entity this)
               then [Light.SetEnabled true] else []))%list).
Proof.
  intros Hl d.
  destruct (refreshProperties_light this l Hl)
    as (this' & extra & Hr & _ & Hl' & He).
  fold d in Hl', He.
  eexists this', _, (refreshCalls d ++ extra)%list.
  split; [ exact Hr | ]. split; [ exact Hl' | ]. split; [ reflexivity | ].
  assert (Hx : filter isGatedCall extra = [])
    by (rewrite He; now destruct (_ && _)).
  unfold refreshCalls. split; [ | split ].
  - intros Hty. rewrite !filter_app, Hx, Hty. reflexivity.
  - intros Hty. rewrite !filter_app, Hx, Hty. reflexivity.
  - intros H1 H2 H3.
    rewrite (eqb_false_of_neq _ _ H1), (eqb_false_of_neq _ _ H2),
      (eqb_false_of_neq _ _ H3), He.
    reflexivity.
Qed.

(** ** Enable, then disable *)

Lemma remove_first_last (m : Model) (l : list Model) :
  existsb (Nat.eqb m) l = false -> Scene.remove_first m (l ++ [m]) = l.
Proof.
  induction l as [ | x l IH ]; cbn.
  - now rewrite Nat.eqb_refl.
  - intros H. apply orb_false_iff in H. destruct H as [Hx Hl].
    rewrite Hx. now rewrite IH.
Qed.

(** X12. onEnable followed by onDisable leaves the render light inactive
    after one setEnabled(true) and one setEnabled(false).  A model that the
    scene did not hold is added and removed again, and the scene's list is
    the one from before; a model that the scene held already is not added
    but is removed all the same, so the scene ends with one occurrence
    less than it had. *)
Theorem onEnable_then_onDisable (this : LightComponent) (l : Light.t) (m : Model) :
  light this = Some l ->
  model (data this) = Some m ->
  exists this' l',
    (onEnable ;; onDisable) this = Some this' /\
    data this' = data this /\
    light this' = Some l' /\
    Light.enabled l' = false /\
    Light.calls l' =
      (Light.calls l ++ [Light.SetEnabled true; Light.SetEnabled false])%list /\
    (Scene.containsModel (scene this) m = false ->
       Scene.models (scene this') = Scene.models (scene this) /\
       Scene.calls (scene this') =
         (Scene.calls (scene this)
          ++ [Scene.AddModel m; Scene.RemoveModel m])%list) /\
    (Scene.containsModel (scene this) m = true ->
       (count_occ Nat.eq_dec (Scene.models (scene this')) m + 1
        = count_occ Nat.eq_dec (Scene.models (scene this)) m)%nat /\
       Scene.calls (scene this') =
         (Scene.calls (scene this) ++ [Scene.RemoveModel m])%list).
Proof.
  intros Hl Hm.
  pose proof (onEnable_some this l Hl) as H1.
  set (this1 := with_scene (with_light this (Light.setEnabled true l))
                           (sceneAfterEnable this)) in *.
  pose proof (onDisable_some this1 (Light.setEnabled true l) eq_refl) as H2.
  cbn [data scene with_scene with_light this1] in H2. rewrite Hm in H2.
  eexists. exists (Light.setEnabled false (Light.setEnabled true l)).
  split; [ rewrite (seq_some _ _ _ _ H1); exact H2 | ].
  split; [ reflexivity | ]. split; [ reflexivity | ]. split; [ reflexivity | ].
  split; [ cbn; now rewrite <- app_assoc | ].
  unfold sceneAfterEnable. cbn [data scene light with_scene with_light].
  rewrite Hm.
  split; intros Hc; rewrite Hc; cbn [Scene.models Scene.calls Scene.removeModel
                                     Scene.addModel].
  - split; [ now apply remove_first_last | now rewrite <- app_assoc ].
  - split; [ now apply remove_first_present | reflexivity ].
Qed.

End LightComponent.

(** * The properties on concrete components

    The engine's masks are single bits: MASK_DYNAMIC = 1, MASK_BAKED = 2 and
    MASK_LIGHTMAP = 4. *)

Lemma type_gated_handlers_witness :
  ignored (onSetShadowDistance "shadowDistance" 40 25) spotLight /\
  forwarded (onSetInnerConeAngle "innerConeAngle" 40 30)
            (Light.SetInnerConeAngle 30) spotLight.
Proof.
  destruct (type_gated_handlers spotLight "shadowDistance") as (H1 & _).
  destruct (type_gated_handlers spotLight "innerConeAngle")
    as (_ & _ & _ & _ & _ & _ & _ & H8 & _).
  split.
  - apply H1. vm_compute. discriminate.
  - apply H8. reflexivity.
Defined.

Lemma shadowBias_forwarded_scaled_witness :
  light spotLight = Some freshLight /\
  onSetShadowBias "shadowBias" 0 0.05 spotLight
    = Some (with_light spotLight
              (Light.receive (Light.SetShadowBias (-0.0005)) freshLight)).
Proof.
  split; [ reflexivity | ].
  exact (shadowBias_forwarded_scaled spotLight "shadowBias" 0 0.05
           freshLight eq_refl).
Defined.

Lemma mask_toggle_handlers_witness :
  light bakedLight = Some freshLight /\
  Z.land 2 4 = 0 /\
  exists r,
    pushed (onSetaffectLightmapped 2 4 "affectLightmapped" false true) r
           bakedLight freshLight /\
    sets 2 r /\ clears 4 r.
Proof.
  split; [ reflexivity | ]. split; [ reflexivity | ].
  destruct (mask_toggle_handlers 2 4 bakedLight freshLight "affectLightmapped"
              eq_refl eq_refl) as ((r & Hp & Hs & Hc & _) & _).
  exists r. split; [ exact Hp | ]. split; [ exact Hs | ].
  apply Hc. reflexivity.
Defined.

Lemma bake_then_affectLightmapped_witness :
  light bakedLight = Some freshLight /\
  lightMap bakedLight = true /\
  baked bakedLight = true /\
  Z.land 2 4 = 0 /\
  exists l',
    (onSetBake 2 4 "bake" false true ;;
     onSetaffectLightmapped 2 4 "affectLightmapped" false true) bakedLight
      = Some (with_light bakedLight l') /\
    clears 4 (Light.mask l') /\ sets 2 (Light.mask l').
Proof.
  repeat (split; [ reflexivity | ]).
  destruct (bake_then_affectLightmapped 2 4 bakedLight freshLight
              "bake" "affectLightmapped" eq_refl eq_refl eq_refl eq_refl)
    as (l' & r1 & Hrun & Hc & Hs & _).
  exists l'. repeat split; assumption.
Defined.

Lemma onEnable_twice_witness :
  light modelLight = Some freshLight /\
  exists this1 l1,
    onEnable modelLight = Some this1 /\
    light this1 = Some l1 /\
    Light.enabled l1 = true.
Proof.
  split; [ reflexivity | ].
  destruct (onEnable_twice modelLight freshLight eq_refl)
    as (this1 & l1 & H1 & H2 & H3 & _).
  exists this1, l1. repeat split; assumption.
Defined.

Lemma onDisable_effect_witness :
  light modelLight = Some freshLight /\
  exists this' l',
    onDisable modelLight = Some this' /\
    light this' = Some l' /\
    Light.enabled l' = false.
Proof.
  split; [ reflexivity | ].
  destruct (onDisable_effect modelLight freshLight eq_refl)
    as (this' & l' & H1 & _ & H2 & H3 & _).
  exists this', l'. repeat split; assumption.
Defined.

(** C6, against the claim.  The component owns model 7, the scene does not
    hold it, and onDisable still calls removeModel: the removal of an absent
    model is not guarded by the component, unlike the addition in onEnable. *)
Lemma onDisable_removes_unguarded :
  model (data modelLight) = Some 7%nat /\
  Scene.containsModel (scene modelLight) 7%nat = false /\
  exists this',
    onDisable modelLight = Some this' /\
    Scene.calls (scene this') = [Scene.RemoveModel 7%nat] /\
    Scene.calls (scene this') <> Scene.calls (scene modelLight).
Proof.
  split; [ reflexivity | ]. split; [ reflexivity | ].
  eexists. split; [ reflexivity | ].
  split; [ reflexivity | ].
  cbn. discriminate.
Defined.

Lemma onSetType_changeType_then_refresh_witness :
  onSetType 1 2 4 freshLightSystem "type" "spot" "spot" spotLight = Some spotLight /\
  onSetType 1 2 4 freshLightSystem "type" "point" "spot" spotLight
    = refreshProperties 1 2 4 (with_light spotLight freshLight).
Proof.
  destruct (onSetType_changeType_then_refresh 1 2 4 freshLightSystem spotLight
              "type" "spot" "spot") as (Hsame & _).
  destruct (onSetType_changeType_then_refresh 1 2 4 freshLightSystem spotLight
              "type" "point" "spot") as (_ & Hdiff).
  split.
  - apply Hsame. reflexivity.
  - destruct Hdiff as (Hrun & _); [ discriminate | ].
    apply Hrun. reflexivity.
Defined.

Lemma refreshProperties_reapplies_all_witness :
  light spotLight = Some freshLight /\
  refreshProperties 1 2 4 spotLight
    = onEnable (with_light spotLight (refreshed (data spotLight) freshLight)).
Proof.
  split; [ reflexivity | ].
  destruct (refreshProperties_reapplies_all 1 2 4 spotLight) as (_ & H).
  destruct (H freshLight eq_refl) as (_ & Hon & _).
  apply Hon. reflexivity.
Defined.

Lemma point_to_spot_refresh_witness :
  type (data spotLight) = "spot" /\
  light spotLight = Some freshLight /\
  exists this' l' new,
    refreshProperties 1 2 4 spotLight = Some this' /\
    light this' = Some l' /\
    Light.calls l' = (Light.calls freshLight ++ new)%list /\
    filter Light.isSetAttenuationEnd new = [Light.SetAttenuationEnd 10].
Proof.
  split; [ reflexivity | ]. split; [ reflexivity | ].
  destruct (point_to_spot_refresh 1 2 4 freshLightSystem spotLight freshLight
              eq_refl eq_refl)
    as (this' & l' & new & H1 & H2 & H3 & H4 & _).
  exists this', l', new. repeat split; assumption.
Defined.


(** ** The handlers run on concrete components *)

(** With lightMap set, affectLightmapped going on takes the fresh light's
    mask 1 to (1 | 2) & ~4 = 3. *)
Example affectLightmapped_on_bakedLight :
  option_map (fun this => option_map Light.mask (light this))
    (onSetaffectLightmapped 2 4 "affectLightmapped" false true bakedLight)
  = Some (Some 3).
Proof. reflexivity. Qed.

(** bake going on and then affectLightmapped going on, with both flags set:
    1 -> (1 | 4) & ~2 = 5 -> (5 | 2) & ~4 = 3. *)
Example bake_then_affectLightmapped_on_bakedLight :
  option_map (fun this => option_map Light.calls (light this))
    ((onSetBake 2 4 "bake" false true ;;
      onSetaffectLightmapped 2 4 "affectLightmapped" false true) bakedLight)
  = Some (Some [Light.SetMask 5; Light.SetMask 3]).
Proof. reflexivity. Qed.

(** A bitwise edit keeps the low 32 bits only: 2^32 + 1 becomes 1 | 2 = 3. *)
Example maskOr_wraps :
  bitor (2 ^ 32 + 1) 2 = 3.
Proof. reflexivity. Qed.

(** A directional light: the refresh forwards shadowDistance and none of the
    point and spot properties, and enables the light. *)
Example refreshProperties_on_directional :
  option_map (fun this => option_map Light.calls (light this))
    (refreshProperties 1 2 4 bakedLight)
  = Some (Some [Light.SetCastShadows false; Light.SetColor white;
                Light.SetIntensity 1; Light.SetShadowDistance 40;
                Light.SetShadowResolution 1024; Light.SetShadowBias (-0.0005);
                Light.SetNormalOffsetBias 0; Light.SetShadowType 0;
                Light.SetMask 1; Light.SetMask 1; Light.SetMask 1;
                Light.SetMask 1; Light.SetEnabled true]).
Proof. reflexivity. Qed.

(** onEnable twice on a component that owns model 7: one addModel. *)
Example onEnable_twice_on_modelLight :
  option_map scene ((onEnable ;; onEnable) modelLight)
  = Some {| Scene.models := [7%nat]; Scene.calls := [Scene.AddModel 7%nat] |}.
Proof. reflexivity. Qed.

(** Once a toggle has edited the light's mask (here to 3) it differs from the
    stored mask property (1), and the refresh puts the stored one back. *)
Example refreshProperties_after_toggle :
  option_map (fun this => option_map Light.mask (light this))
    ((onSetaffectLightmapped 2 4 "affectLightmapped" false true ;;
      refreshProperties 1 2 4) bakedLight)
  = Some (Some 1).
Proof. reflexivity. Qed.

(** * The further properties on concrete components *)

(** A component whose render light is null. *)
Definition nullLight : LightComponent :=
  {| data := defaultData; light := None; lightMap := false; baked := false;
     entity := {| Entity.enabled := true |}; scene := emptyScene |}.

(** A component whose light holds mask 3 while the stored mask is 1. *)
Definition editedLight : LightComponent :=
  with_light bakedLight (Light.with_mask 3 freshLight).

Lemma refreshProperties_mask_from_stored_witness :
  light editedLight = Some (Light.with_mask 3 freshLight) /\
  exists this' l',
    refreshProperties 1 2 4 editedLight = Some this' /\
    light this' = Some l' /\
    Light.mask l' = mask (data editedLight) /\
    ~ Light.mask l' = 3.
Proof.
  split; [ reflexivity | ].
  destruct (refreshProperties_mask_from_stored 1 2 4 editedLight
              (Light.with_mask 3 freshLight) eq_refl)
    as ((this' & l' & new & H1 & _ & H2 & H3 & _ & _ & H4) & _).
  exists this', l'. split; [ exact H1 | ]. split; [ exact H2 | ].
  split; [ exact H3 | ].
  intros H. apply H4 in H. discriminate H.
Defined.

(** C10, against the claim.  affectLightmapped goes from false to true on a
    component with the lightMap flag set: the stored properties, the stored
    mask among them, are unchanged and the light's mask goes from 1 to 3.
    The refresh that follows calls every toggle handler with equal old and
    new values, and yet the light's mask is not the one from before the
    refresh: it is back to the stored mask 1. *)
Lemma refreshProperties_drops_toggle_bits :
  option_map data
    (onSetaffectLightmapped 2 4 "affectLightmapped" false true bakedLight)
    = Some (data bakedLight) /\
  option_map (fun this => option_map Light.mask (light this))
    (onSetaffectLightmapped 2 4 "affectLightmapped" false true bakedLight)
    = Some (Some 3) /\
  option_map (fun this => option_map Light.mask (light this))
    ((onSetaffectLightmapped 2 4 "affectLightmapped" false true ;;
      refreshProperties 1 2 4) bakedLight)
    = Some (Some 1) /\
  3 <> 1.
Proof.
  split; [ vm_compute; reflexivity | ].
  split; [ vm_compute; reflexivity | ].
  split; [ vm_compute; reflexivity | ].
  discriminate.
Defined.

Lemma null_light_faults_witness :
  light nullLight = None /\
  onDisable nullLight = None /\
  refreshProperties 1 2 4 nullLight = None.
Proof.
  split; [ reflexivity | ].
  pose proof (null_light_faults 1 2 4 nullLight "mask" eq_refl) as H.
  repeat match type of H with
         | _ /\ _ => destruct H as (_ & H)
         end.
  split; [ | exact H ].
  pose proof (null_light_faults 1 2 4 nullLight "mask" eq_refl) as H'.
  do 19 destruct H' as (_ & H').
  exact (proj1 H').
Defined.

Lemma ungated_handlers_forward_witness :
  light spotLight = Some freshLight /\
  onSetIntensity "intensity" 1 2 spotLight
    = Some (with_light spotLight
              (Light.receive (Light.SetIntensity 2) freshLight)).
Proof.
  split; [ reflexivity | ].
  destruct (ungated_handlers_forward spotLight "intensity")
    as (_ & _ & _ & H & _).
  exact (H 1%float 2%float freshLight eq_refl).
Defined.

Lemma affectDynamic_toggle_bits_witness :
  light spotLight = Some freshLight /\
  exists r,
    pushed (onSetAffectDynamic 1 "affectDynamic" true false) r
           spotLight freshLight /\
    clears 1 r.
Proof.
  split; [ reflexivity | ].
  destruct (affectDynamic_toggle_bits 1 spotLight freshLight "affectDynamic"
              eq_refl) as (_ & r & Hp & Hc & _).
  exists r. split; assumption.
Defined.

Lemma toggle_on_then_off_witness :
  light bakedLight = Some freshLight /\
  Z.land 2 4 = 0 /\
  lightMap bakedLight = true /\
  exists r,
    ends_with_mask (onSetaffectLightmapped 2 4 "affectLightmapped" false true ;;
                    onSetaffectLightmapped 2 4 "affectLightmapped" true false)
                   bakedLight r /\
    sets 4 r.
Proof.
  repeat (split; [ reflexivity | ]).
  destruct (toggle_on_then_off 2 4 bakedLight freshLight
              "affectLightmapped" "affectLightmapped" eq_refl eq_refl)
    as (H & _).
  destruct (H eq_refl) as (r & Hr & _ & Hs & _).
  exists r. split; assumption.
Defined.

Lemma toggle_order_matters_witness :
  light bakedLight = Some freshLight /\
  lightMap bakedLight = true /\
  baked bakedLight = true /\
  Z.land 2 4 = 0 /\
  exists r r',
    ends_with_mask (onSetaffectLightmapped 2 4 "affectLightmapped" false true ;;
                    onSetBake 2 4 "bake" false true) bakedLight r /\
    ends_with_mask (onSetBake 2 4 "bake" false true ;;
                    onSetaffectLightmapped 2 4 "affectLightmapped" false true)
                   bakedLight r' /\
    r <> r'.
Proof.
  repeat (split; [ reflexivity | ]).
  destruct (toggle_order_matters 2 4 bakedLight freshLight
              "affectLightmapped" "bake" eq_refl eq_refl eq_refl eq_refl)
    as (r & r' & H1 & H2 & _ & _ & _ & Hne).
  exists r, r'. split; [ exact H1 | ]. split; [ exact H2 | ].
  apply Hne. exists 1. split; [ lia | reflexivity ].
Defined.

Lemma toggles_commute_without_flags_witness :
  light spotLight = Some freshLight /\
  lightMap spotLight = false /\
  baked spotLight = false /\
  Z.land 2 4 = 0 /\
  exists r,
    ends_with_mask (onSetaffectLightmapped 2 4 "affectLightmapped" false true ;;
                    onSetBake 2 4 "bake" false true) spotLight r /\
    ends_with_mask (onSetBake 2 4 "bake" false true ;;
                    onSetaffectLightmapped 2 4 "affectLightmapped" false true)
                   spotLight r.
Proof.
  repeat (split; [ reflexivity | ]).
  exact (toggles_commute_without_flags 2 4 spotLight freshLight
           "affectLightmapped" "bake" false true false true
           eq_refl eq_refl eq_refl eq_refl).
Defined.

Lemma toggle_mask_is_int32_witness :
  light spotLight = Some freshLight /\
  false <> true /\
  exists r,
    pushed (onSetBake 2 4 "bake" false true) r spotLight freshLight /\
    int32 r.
Proof.
  split; [ reflexivity | ]. split; [ discriminate | ].
  destruct (toggle_mask_is_int32 1 2 4 spotLight freshLight "bake" eq_refl)
    as (_ & _ & _ & H).
  apply H. discriminate.
Defined.

Lemma toggle_replay_witness :
  light bakedLight = Some freshLight /\
  exists r,
    ends_with_mask (onSetBake 2 4 "bake" false true) bakedLight r /\
    ends_with_mask (onSetBake 2 4 "bake" false true ;;
                    onSetBake 2 4 "bake" false true) bakedLight r.
Proof.
  split; [ reflexivity | ].
  destruct (toggle_replay 1 2 4 bakedLight freshLight "bake" false true eq_refl)
    as (_ & _ & H).
  exact H.
Defined.

Lemma handlers_touch_light_only_witness :
  exists this',
    onSetRange "range" 10 20 spotLight = Some this' /\
    data this' = data spotLight /\
    scene this' = scene spotLight.
Proof.
  eexists. split; [ reflexivity | ].
  destruct (handlers_touch_light_only 1 2 4 "range")
    as (_ & _ & _ & _ & _ & _ & _ & H & _).
  destruct (H 10%float 20%float spotLight _ eq_refl)
    as (Hd & _ & _ & _ & Hs & _).
  split; assumption.
Defined.

Lemma refreshProperties_twice_witness :
  light modelLight = Some freshLight /\
  exists this1 this2,
    refreshProperties 1 2 4 modelLight = Some this1 /\
    refreshProperties 1 2 4 this1 = Some this2 /\
    scene this2 = scene this1.
Proof.
  split; [ reflexivity | ].
  destruct (refreshProperties_twice 1 2 4 modelLight freshLight eq_refl)
    as (this1 & this2 & l1 & l2 & new & H1 & H2 & H).
  exists this1, this2. split; [ exact H1 | ]. split; [ exact H2 | ].
  apply H.
Defined.

Lemma refreshProperties_by_type_witness :
  light bakedLight = Some freshLight /\
  type (data bakedLight) = "directional" /\
  exists this' l' new,
    refreshProperties 1 2 4 bakedLight = Some this' /\
    light this' = Some l' /\
    Light.calls l' = (Light.calls freshLight ++ new)%list /\
    filter isGatedCall new = [Light.SetShadowDistance 40].
Proof.
  split; [ reflexivity | ]. split; [ reflexivity | ].
  destruct (refreshProperties_by_type 1 2 4 bakedLight freshLight eq_refl)
    as (this' & l' & new & H1 & H2 & H3 & H4 & _).
  exists this', l', new. repeat (split; [ assumption | ]).
  apply H4. reflexivity.
Defined.

Lemma refreshProperties_mask_is_stored_witness :
  light editedLight = Some (Light.with_mask 3 freshLight) /\
  exists this' l',
    refreshProperties 1 2 4 editedLight = Some this' /\
    light this' = Some l' /\
    Light.mask l' = 1.
Proof.
  split; [ reflexivity | ].
  exact (refreshProperties_mask_is_stored 1 2 4 editedLight _ eq_refl).
Defined.

Lemma onEnable_then_onDisable_witness :
  light modelLight = Some freshLight /\
  model (data modelLight) = Some 7%nat /\
  Scene.containsModel (scene modelLight) 7%nat = false /\
  exists this',
    (onEnable ;; onDisable) modelLight = Some this' /\
    Scene.models (scene this') = Scene.models (scene modelLight).
Proof.
  repeat (split; [ reflexivity | ]).
  destruct (onEnable_then_onDisable modelLight freshLight 7%nat eq_refl eq_refl)
    as (this' & l' & H1 & _ & _ & _ & _ & Habs & _).
  exists this'. split; [ exact H1 | ].
  apply Habs. reflexivity.
Defined.
